(** * MyMDM: the check-in handler, the command channel and the command queue

    A shallow embedding of [be/main.py] and [be/src/apns_client.py].

    The server keeps two module-level dicts, [enrolled_devices] and
    [pending_commands], both keyed by the device's UDID.  Every endpoint is
    an effectful function over that store; it is embedded here as a
    computation in a state-and-exception monad over [World], which holds the
    two dicts together with what the handlers consume from or emit to the
    outside: readings of the clock, drawn UUIDs, push attempts and log
    records.

    Modelling conventions.
    - A parsed plist request is a record of the keys the handler reads; a
      key that is absent is [None] (what [data.get] answers).  A body that
      [plistlib.loads] rejects is [None] at the level of the whole body.
      [UDID], [MessageType], [Status], [CommandUUID] and [PushMagic] are
      plist strings, [Token] and [UnlockToken] are plist data.
    - [data.get("UDID")] may be [None], and Python accepts [None] as a dict
      key, so both dicts are keyed by [option string]; the management API
      always supplies a [str], that is a key [Some udid].
    - [datetime.utcnow().isoformat()], [str(uuid.uuid4())], the APNs
      exchange and [plistlib.dumps] are outside the program: they are
      the fields of [Env], the first three indexed by the number of
      earlier calls.
    - [except Exception] in [send_apns_notification] is modelled for
      exceptions deriving from [Exception].
    - The endpoints that only read ([/], [/enroll], [GET /api/devices],
      [GET /api/devices/{udid}]) do not touch the two dicts and are not
      among the requests of a run; [get_device] is embedded on its own. *)

From Stdlib Require Import ZArith Ascii.
From stdpp Require Import gmap strings pretty list fin_maps.

Local Open Scope string_scope.
Local Open Scope list_scope.

(** ** Plist and JSON values *)

#[warnings="-register-all"]
Inductive Value :=
| VNull
| VBool (b : bool)
| VInt (z : Z)
| VString (s : string)
| VData (bs : list Byte.byte)
| VArray (xs : list Value)
| VDict (kvs : list (string * Value)).

(** A Python [dict] with string keys, in insertion order. *)
Abbreviation Dict := (list (string * Value)).

Fixpoint dict_get (k : string) (d : Dict) : option Value :=
  match d with
  | [] => None
  | (k', v) :: d' => if decide (k' = k) then Some v else dict_get k d'
  end.

(** [d[k] = v]: replaces the binding of [k], or adds one at the end. *)
Fixpoint dict_set (k : string) (v : Value) (d : Dict) : Dict :=
  match d with
  | [] => [(k, v)]
  | (k', v') :: d' =>
      if decide (k' = k) then (k, v) :: d' else (k', v') :: dict_set k v d'
  end.

(** [bytes.hex()]: two lower-case hexadecimal digits per byte. *)
Definition hex_digit (n : nat) : Ascii.ascii :=
  match n with
  | 0 => "0" | 1 => "1" | 2 => "2" | 3 => "3" | 4 => "4" | 5 => "5"
  | 6 => "6" | 7 => "7" | 8 => "8" | 9 => "9" | 10 => "a" | 11 => "b"
  | 12 => "c" | 13 => "d" | 14 => "e" | _ => "f"
  end%char.

Definition byte_hex (b : Byte.byte) : string :=
  let n := Byte.to_nat b in
  String (hex_digit (n / 16)) (String (hex_digit (n mod 16)) EmptyString).

Fixpoint hex (bs : list Byte.byte) : string :=
  match bs with
  | [] => ""
  | b :: bs' => byte_hex b +:+ hex bs'
  end.

(** [x.hex() if x else None]: absent and empty data both give [None]. *)
Definition hex_if_truthy (x : option (list Byte.byte)) : option string :=
  match x with
  | None | Some [] => None
  | Some bs => Some (hex bs)
  end.

(** Truthiness of an [Optional[str]]. *)
Definition truthy (s : option string) : bool :=
  match s with
  | None | Some EmptyString => false
  | Some _ => true
  end.

(** ** The data model *)

(** An entry of [enrolled_devices].  The two lost-mode keys are only
    present after [enable_lost_mode]; [None] is an absent key. *)
Record Device := {
  udid : option string;
  token : option string;
  push_magic : option string;
  unlock_token : option string;
  enrolled_at : string;
  last_seen : string;
  lost_mode_enabled : bool;
  lost_mode_message : option string;
  lost_mode_phone : option string
}.

(** An element of a list of [pending_commands]. *)
Record MdmCommand := {
  CommandUUID : string;
  Command : Dict
}.

Definition mdm_command_dict (c : MdmCommand) : Value :=
  VDict [("CommandUUID", VString (CommandUUID c)); ("Command", VDict (Command c))].

(** The keys [mdm_checkin] reads from the parsed body. *)
Record CheckinData := {
  ci_MessageType : option string;
  ci_UDID : option string;
  ci_Token : option (list Byte.byte);
  ci_PushMagic : option string;
  ci_UnlockToken : option (list Byte.byte)
}.

(** The keys [mdm_command] reads from the parsed body. *)
Record CommandData := {
  cd_UDID : option string;
  cd_Status : option string;
  cd_CommandUUID : option string;
  cd_ErrorChain : option Value;
  cd_QueryResponses : option Value
}.

(** A FastAPI [Response]. *)
Record Response := {
  status_code : nat;
  content : list Byte.byte;
  media_type : option string
}.

Definition empty_response (code : nat) : Response :=
  {| status_code := code; content := []; media_type := None |}.

(** The dict [send_command] returns. *)
Record CommandReceipt := {
  status : string;
  command_uuid : string;
  apns_sent : bool
}.

Inductive Exn :=
| HTTPException (code : nat) (detail : string)
| KeyError (key : string)
| DumpsError.

(** What the APNs exchange inside the [try] of [send_apns_notification]
    comes to: an exception, or a response with its [is_successful] and
    [description]. *)
Inductive ApnsOutcome :=
| ApnsRaised
| ApnsResponse (is_successful : bool) (description : string).

Record PushRequest := {
  pr_token : option string;
  pr_push_magic : option string;
  pr_topic : string
}.

Inductive LogRecord :=
| LogParseFailed
| LogCheckIn (message_type udid : option string)
| LogAuthenticating (udid : option string)
| LogTokenUpdated (udid : option string)
| LogCheckedOut (udid : option string)
| LogCommandResponse (udid status command_uuid : option string)
| LogAcknowledged (command_uuid udid : option string)
| LogQueryResponses (responses : Value)
| LogCommandFailed (command_uuid : option string) (error_chain : Value)
| LogSendingPending (udid : option string) (request_type : Value)
| LogQueued (udid : string) (request_type : option Value)
| LogApnsSent (token_prefix : string)
| LogApnsFailed (description : string)
| LogApnsError
| LogLostModeEnabled (udid : string)
| LogLostModeDisabled (udid : string)
| LogLocationRequested (udid : string)
| LogSoundRequested (udid : string).

Record World := {
  enrolled_devices : gmap (option string) Device;
  pending_commands : gmap (option string) (list MdmCommand);
  clock_reads : nat;
  uuids_drawn : nat;
  apns_attempts : list PushRequest;
  log : list LogRecord
}.

Definition initial_world : World :=
  {| enrolled_devices := ∅; pending_commands := ∅; clock_reads := 0;
     uuids_drawn := 0; apns_attempts := []; log := [] |}.

Definition MDM_CONFIG_topic : string := "com.apple.mgmt.External.your-uuid".

(** ** The monad of handlers *)

Inductive Outcome (A : Type) :=
| Returned (a : A)
| Raised (e : Exn).
Arguments Returned {A} a.
Arguments Raised {A} e.

Definition M (A : Type) : Type := World → Outcome A * World.

Definition ret {A} (a : A) : M A := λ w, (Returned a, w).

Definition raise {A} (e : Exn) : M A := λ w, (Raised e, w).

Definition bind {A B} (m : M A) (k : A → M B) : M B :=
  λ w, match m w with
       | (Returned a, w') => k a w'
       | (Raised e, w') => (Raised e, w')
       end.

Declare Scope handler_scope.
Delimit Scope handler_scope with handler.
Notation "'do' x <- m ; k" := (bind m (λ x, k))
  (at level 10, x name, m at level 100, k at level 200) : handler_scope.
Notation "m >> k" := (bind m (λ _, k))
  (at level 100, k at level 200, right associativity) : handler_scope.
Local Open Scope handler_scope.

Definition get_world : M World := λ w, (Returned w, w).

Definition set_enrolled_devices (f : gmap (option string) Device → gmap (option string) Device) : M unit :=
  λ w, (Returned tt,
        {| enrolled_devices := f (enrolled_devices w);
           pending_commands := pending_commands w;
           clock_reads := clock_reads w; uuids_drawn := uuids_drawn w;
           apns_attempts := apns_attempts w; log := log w |}).

Definition set_pending_commands (f : gmap (option string) (list MdmCommand) → gmap (option string) (list MdmCommand)) : M unit :=
  λ w, (Returned tt,
        {| enrolled_devices := enrolled_devices w;
           pending_commands := f (pending_commands w);
           clock_reads := clock_reads w; uuids_drawn := uuids_drawn w;
           apns_attempts := apns_attempts w; log := log w |}).

Definition logger (r : LogRecord) : M unit :=
  λ w, (Returned tt,
        {| enrolled_devices := enrolled_devices w;
           pending_commands := pending_commands w;
           clock_reads := clock_reads w; uuids_drawn := uuids_drawn w;
           apns_attempts := apns_attempts w; log := log w ++ [r] |}).

Definition when (b : bool) (m : M unit) : M unit := if b then m else ret tt.

(** What the handlers call outside the program. *)
Record Env := {
  (** [datetime.utcnow().isoformat()] at its n-th call *)
  utcnow_isoformat : nat → string;
  (** [str(uuid.uuid4())] at its n-th call *)
  uuid4 : nat → string;
  (** the outcome of the n-th APNs exchange *)
  apns_exchange : nat → ApnsOutcome;
  (** [plistlib.dumps]; [None] when it raises *)
  plistlib_dumps : Value → option (list Byte.byte)
}.

(** ** The handlers *)

Section Server.

Variable env : Env.

Definition utcnow : M string :=
  λ w, (Returned (utcnow_isoformat env (clock_reads w)),
        {| enrolled_devices := enrolled_devices w;
           pending_commands := pending_commands w;
           clock_reads := S (clock_reads w); uuids_drawn := uuids_drawn w;
           apns_attempts := apns_attempts w; log := log w |}).

Definition new_uuid : M string :=
  λ w, (Returned (uuid4 env (uuids_drawn w)),
        {| enrolled_devices := enrolled_devices w;
           pending_commands := pending_commands w;
           clock_reads := clock_reads w; uuids_drawn := S (uuids_drawn w);
           apns_attempts := apns_attempts w; log := log w |}).

(** The body of the [try] up to [response]: the request is attempted and
    the collaborator's outcome for this attempt is read. *)
Definition apns_attempt (r : PushRequest) : M ApnsOutcome :=
  λ w, (Returned (apns_exchange env (length (apns_attempts w))),
        {| enrolled_devices := enrolled_devices w;
           pending_commands := pending_commands w;
           clock_reads := clock_reads w; uuids_drawn := uuids_drawn w;
           apns_attempts := apns_attempts w ++ [r]; log := log w |}).

Definition parse_plist {A} (body : option A) : M A :=
  match body with
  | Some data => ret data
  | None => logger LogParseFailed >> raise (HTTPException 400 "Invalid plist data")
  end.

Definition create_plist_response (data : MdmCommand) : M Response :=
  match plistlib_dumps env (mdm_command_dict data) with
  | Some plist_data =>
      ret {| status_code := 200; content := plist_data;
             media_type := Some "application/xml" |}
  | None => raise DumpsError
  end.

Definition set_last_seen (t : string) (d : Device) : Device :=
  {| udid := udid d; token := token d; push_magic := push_magic d;
     unlock_token := unlock_token d; enrolled_at := enrolled_at d;
     last_seen := t; lost_mode_enabled := lost_mode_enabled d;
     lost_mode_message := lost_mode_message d;
     lost_mode_phone := lost_mode_phone d |}.

Definition set_lost_mode (enabled : bool) (message phone : option string) (d : Device) : Device :=
  {| udid := udid d; token := token d; push_magic := push_magic d;
     unlock_token := unlock_token d; enrolled_at := enrolled_at d;
     last_seen := last_seen d; lost_mode_enabled := enabled;
     lost_mode_message := message; lost_mode_phone := phone |}.

Definition mdm_checkin (body : option CheckinData) : M Response :=
  do data <- parse_plist body;
  let message_type := ci_MessageType data in
  let udid := ci_UDID data in
  logger (LogCheckIn message_type udid) >>
  if decide (message_type = Some "Authenticate") then
    logger (LogAuthenticating udid) >>
    ret (empty_response 200)
  else if decide (message_type = Some "TokenUpdate") then
    let token := ci_Token data in
    let push_magic := ci_PushMagic data in
    let unlock_token := ci_UnlockToken data in
    do enrolled_at <- utcnow;
    do last_seen <- utcnow;
    set_enrolled_devices
      <[udid := {| udid := udid;
                   token := hex_if_truthy token;
                   push_magic := push_magic;
                   unlock_token := hex_if_truthy unlock_token;
                   enrolled_at := enrolled_at;
                   last_seen := last_seen;
                   lost_mode_enabled := false;
                   lost_mode_message := None;
                   lost_mode_phone := None |}]> >>
    logger (LogTokenUpdated udid) >>
    ret (empty_response 200)
  else if decide (message_type = Some "CheckOut") then
    do w <- get_world;
    when (bool_decide (is_Some (enrolled_devices w !! udid)))
         (set_enrolled_devices (delete udid)) >>
    logger (LogCheckedOut udid) >>
    ret (empty_response 200)
  else
    ret (empty_response 400).

Definition mdm_command (body : option CommandData) : M Response :=
  do data <- parse_plist body;
  let udid := cd_UDID data in
  let status := cd_Status data in
  let command_uuid := cd_CommandUUID data in
  logger (LogCommandResponse udid status command_uuid) >>
  do w <- get_world;
  (if bool_decide (is_Some (enrolled_devices w !! udid)) then
     do now <- utcnow;
     set_enrolled_devices (alter (set_last_seen now) udid)
   else ret tt) >>
  (if decide (status = Some "Acknowledged") then
     logger (LogAcknowledged command_uuid udid) >>
     match cd_QueryResponses data with
     | Some responses => logger (LogQueryResponses responses)
     | None => ret tt
     end
   else if decide (status = Some "Error") then
     let error_chain := default (VArray []) (cd_ErrorChain data) in
     logger (LogCommandFailed command_uuid error_chain)
   else ret tt) >>
  do w <- get_world;
  match pending_commands w !! udid with
  | Some (command :: rest) =>
      set_pending_commands <[udid := rest]> >>
      do request_type <-
        match dict_get "RequestType" (Command command) with
        | Some v => ret v
        | None => raise (KeyError "RequestType")
        end;
      logger (LogSendingPending udid request_type) >>
      create_plist_response command
  | _ => ret (empty_response 200)
  end.

Definition send_apns_notification (token push_magic : option string) (topic : string) : M bool :=
  do response <- apns_attempt {| pr_token := token; pr_push_magic := push_magic;
                                 pr_topic := topic |};
  match response with
  | ApnsResponse true _ =>
      match token with
      | Some t => logger (LogApnsSent (String.substring 0 10 t)) >> ret true
      | None => logger LogApnsError >> ret false
      end
  | ApnsResponse false description =>
      logger (LogApnsFailed description) >> ret false
  | ApnsRaised => logger LogApnsError >> ret false
  end.

Definition send_command (udid : string) (command : Dict) : M CommandReceipt :=
  do w <- get_world;
  match enrolled_devices w !! Some udid with
  | None => raise (HTTPException 404 "Device not found")
  | Some device =>
      do command_uuid <- new_uuid;
      let mdm_command := {| CommandUUID := command_uuid; Command := command |} in
      do w <- get_world;
      when (bool_decide (pending_commands w !! Some udid = None))
           (set_pending_commands <[Some udid := []]>) >>
      set_pending_commands (alter (λ q, q ++ [mdm_command]) (Some udid)) >>
      logger (LogQueued udid (dict_get "RequestType" command)) >>
      do push_result <- send_apns_notification (token device) (push_magic device)
                                               MDM_CONFIG_topic;
      ret {| status := "queued"; command_uuid := command_uuid;
             apns_sent := push_result |}
  end.

Definition request_device_info (udid : string) : M CommandReceipt :=
  let queries :=
    ["DeviceName"; "OSVersion"; "BuildVersion"; "ModelName";
     "Model"; "ProductName"; "SerialNumber"; "DeviceCapacity";
     "AvailableDeviceCapacity"; "BatteryLevel"; "UDID";
     "IsSupervised"; "IsDeviceLocatorServiceEnabled"] in
  let command :=
    [("RequestType", VString "DeviceInformation");
     ("Queries", VArray (VString <$> queries))] in
  send_command udid command.

Definition install_profile (udid : string) (profile : Dict) : M CommandReceipt :=
  do payload <-
    match plistlib_dumps env (VDict profile) with
    | Some bs => ret bs
    | None => raise DumpsError
    end;
  let command :=
    [("RequestType", VString "InstallProfile"); ("Payload", VData payload)] in
  send_command udid command.

Definition device_lock (udid : string) (message phone_number : option string) : M CommandReceipt :=
  let command := [("RequestType", VString "DeviceLock")] in
  let command :=
    if truthy message then dict_set "Message" (VString (default "" message)) command
    else command in
  let command :=
    if truthy phone_number
    then dict_set "PhoneNumber" (VString (default "" phone_number)) command
    else command in
  send_command udid command.

Definition require_enrolled (udid : string) : M unit :=
  do w <- get_world;
  if bool_decide (is_Some (enrolled_devices w !! Some udid)) then ret tt
  else raise (HTTPException 404 "Device not found").

Definition enable_lost_mode (udid message phone_number : string) (footnote : option string) : M CommandReceipt :=
  require_enrolled udid >>
  let command :=
    [("RequestType", VString "EnableLostMode");
     ("Message", VString message);
     ("PhoneNumber", VString phone_number)] in
  let command :=
    if truthy footnote then dict_set "Footnote" (VString (default "" footnote)) command
    else command in
  set_enrolled_devices
    (alter (set_lost_mode true (Some message) (Some phone_number)) (Some udid)) >>
  do result <- send_command udid command;
  logger (LogLostModeEnabled udid) >>
  ret result.

Definition disable_lost_mode (udid : string) : M CommandReceipt :=
  require_enrolled udid >>
  do w <- get_world;
  if negb (from_option lost_mode_enabled false (enrolled_devices w !! Some udid)) then
    raise (HTTPException 400 "Lost Mode is not enabled")
  else
    let command := [("RequestType", VString "DisableLostMode")] in
    set_enrolled_devices (alter (set_lost_mode false None None) (Some udid)) >>
    do result <- send_command udid command;
    logger (LogLostModeDisabled udid) >>
    ret result.

Definition get_lost_mode_location (udid : string) : M CommandReceipt :=
  require_enrolled udid >>
  let command := [("RequestType", VString "DeviceLocation")] in
  do result <- send_command udid command;
  logger (LogLocationRequested udid) >>
  ret result.

Definition play_lost_mode_sound (udid : string) : M CommandReceipt :=
  require_enrolled udid >>
  let command := [("RequestType", VString "PlayLostModeSound")] in
  do result <- send_command udid command;
  logger (LogSoundRequested udid) >>
  ret result.

Definition unenroll_device (udid : string) : M string :=
  require_enrolled udid >>
  let command :=
    [("RequestType", VString "RemoveProfile");
     ("Identifier", VString "com.yourorg.mdm")] in
  send_command udid command >>
  ret "unenrollment_initiated".

(** [GET /api/devices/{udid}]: the entry itself, or the 404. *)
Definition get_device (udid : string) : M Device :=
  do w <- get_world;
  match enrolled_devices w !! Some udid with
  | None => raise (HTTPException 404 "Device not found")
  | Some device => ret device
  end.

End Server.

(** ** Requests and runs of the server *)

Inductive Request :=
| PutCheckin (body : option CheckinData)
| PutCommand (body : option CommandData)
| PostCommand (udid : string) (command : Dict)
| PostDeviceInfo (udid : string)
| PostInstallProfile (udid : string) (profile : Dict)
| PostDeviceLock (udid : string) (message phone_number : option string)
| PostLostModeEnable (udid message phone_number : string) (footnote : option string)
| PostLostModeDisable (udid : string)
| GetLostModeLocation (udid : string)
| PostPlaySound (udid : string)
| DeleteDevice (udid : string).

Section Runs.

Variable env : Env.

(** The world a request leaves behind, whether it returned or raised. *)
Definition handle (r : Request) (w : World) : World :=
  match r with
  | PutCheckin body => (mdm_checkin env body w).2
  | PutCommand body => (mdm_command env body w).2
  | PostCommand udid command => (send_command env udid command w).2
  | PostDeviceInfo udid => (request_device_info env udid w).2
  | PostInstallProfile udid profile =>
      (install_profile env udid profile w).2
  | PostDeviceLock udid message phone_number =>
      (device_lock env udid message phone_number w).2
  | PostLostModeEnable udid message phone_number footnote =>
      (enable_lost_mode env udid message phone_number footnote w).2
  | PostLostModeDisable udid => (disable_lost_mode env udid w).2
  | GetLostModeLocation udid => (get_lost_mode_location env udid w).2
  | PostPlaySound udid => (play_lost_mode_sound env udid w).2
  | DeleteDevice udid => (unenroll_device env udid w).2
  end.

Definition run (rs : list Request) (w : World) : World :=
  foldl (λ w r, handle r w) w rs.


End Runs.

(** ** What the handlers compute

    The result and the log record of [send_apns_notification] as functions
    of the token and of the outcome of the exchange: a successful response
    is reported through [token[:10]], which raises inside the [try] when the
    token is [None]. *)

Definition push_result (token : option string) (o : ApnsOutcome) : bool :=
  match o with
  | ApnsResponse true _ => bool_decide (is_Some token)
  | _ => false
  end.

Definition push_log (token : option string) (o : ApnsOutcome) : LogRecord :=
  match o with
  | ApnsResponse true _ =>
      match token with
      | Some t => LogApnsSent (String.substring 0 10 t)
      | None => LogApnsError
      end
  | ApnsResponse false description => LogApnsFailed description
  | ApnsRaised => LogApnsError
  end.

(** The queue of a device; a device without an entry has nothing queued. *)
Definition queue_of (pending : gmap (option string) (list MdmCommand)) (udid : option string) : list MdmCommand :=
  default [] (pending !! udid).

(** [enrolled_devices] and the number of clock readings after the "update
    device last seen" step of [mdm_command]. *)
Definition touched (env : Env) (udid : option string) (w : World) : gmap (option string) Device :=
  if bool_decide (is_Some (enrolled_devices w !! udid))
  then alter (set_last_seen (utcnow_isoformat env (clock_reads w))) udid (enrolled_devices w)
  else enrolled_devices w.

Definition clock_after_touch (udid : option string) (w : World) : nat :=
  if bool_decide (is_Some (enrolled_devices w !! udid))
  then S (clock_reads w) else clock_reads w.

(** The log records of the "process command response" step. *)
Definition status_log (data : CommandData) : list LogRecord :=
  if decide (cd_Status data = Some "Acknowledged") then
    LogAcknowledged (cd_CommandUUID data) (cd_UDID data) ::
    match cd_QueryResponses data with
    | Some responses => [LogQueryResponses responses]
    | None => []
    end
  else if decide (cd_Status data = Some "Error") then
    [LogCommandFailed (cd_CommandUUID data) (default (VArray []) (cd_ErrorChain data))]
  else [].

(** What the exchange answers once [command] has been popped: the
    [KeyError] of [command['Command']['RequestType']], or the result of
    [create_plist_response]. *)
Definition deliver (env : Env) (command : MdmCommand) : Outcome Response :=
  match dict_get "RequestType" (Command command) with
  | None => Raised (KeyError "RequestType")
  | Some _ =>
      match plistlib_dumps env (mdm_command_dict command) with
      | Some plist_data =>
          Returned {| status_code := 200; content := plist_data;
                      media_type := Some "application/xml" |}
      | None => Raised DumpsError
      end
  end.

Definition sending_log (udid : option string) (command : MdmCommand) : list LogRecord :=
  match dict_get "RequestType" (Command command) with
  | Some request_type => [LogSendingPending udid request_type]
  | None => []
  end.

(** The entry a [TokenUpdate] writes when the clock has been read
    [clock_reads w] times. *)
Definition token_update_entry (env : Env) (data : CheckinData) (w : World) : Device :=
  {| udid := ci_UDID data;
     token := hex_if_truthy (ci_Token data);
     push_magic := ci_PushMagic data;
     unlock_token := hex_if_truthy (ci_UnlockToken data);
     enrolled_at := utcnow_isoformat env (clock_reads w);
     last_seen := utcnow_isoformat env (S (clock_reads w));
     lost_mode_enabled := false;
     lost_mode_message := None;
     lost_mode_phone := None |}.

(** The same exchange carrying no status report. *)
Definition without_status (data : CommandData) : CommandData :=
  {| cd_UDID := cd_UDID data; cd_Status := None; cd_CommandUUID := None;
     cd_ErrorChain := None; cd_QueryResponses := None |}.


(** The entry [command[key] = value] adds under [if value:]: nothing for
    [None] and for the empty string. *)
Definition optional_field (key : string) (value : option string) : Dict :=
  match value with
  | Some (String _ _ as s) => [(key, VString s)]
  | _ => []
  end.

(** ** Relations between worlds *)

(** The fields of an entry that a [TokenUpdate] supplies. *)
Definition same_enrollment (d d' : Device) : Prop :=
  udid d = udid d' ∧ token d = token d' ∧
  push_magic d = push_magic d' ∧ unlock_token d = unlock_token d'.

(** No entry is created, and those that stay keep their enrollment. *)
Definition keeps_enrollment (w w' : World) : Prop :=
  ∀ k d', enrolled_devices w' !! k = Some d' →
          ∃ d, enrolled_devices w !! k = Some d ∧ same_enrollment d d'.

(** A computation whose final world is always related to its initial one. *)
Definition respects {A} (R : World → World → Prop) (m : M A) : Prop :=
  ∀ w, R w (m w).2.

(** Every entry of the registry carries what some [TokenUpdate] among the
    requests [rs] supplied for its key. *)
Definition registered_by (rs : list Request) (w : World) : Prop :=
  ∀ k d, enrolled_devices w !! k = Some d →
    ∃ data, PutCheckin (Some data) ∈ rs ∧
            ci_MessageType data = Some "TokenUpdate" ∧
            ci_UDID data = k ∧
            udid d = k ∧
            token d = hex_if_truthy (ci_Token data) ∧
            push_magic d = ci_PushMagic data ∧
            unlock_token d = hex_if_truthy (ci_UnlockToken data).

(** The same keys in the registry. *)
Definition same_devices (w w' : World) : Prop :=
  dom (enrolled_devices w') = dom (enrolled_devices w).

(** The requests that are not check-ins. *)
Definition is_checkin (r : Request) : bool :=
  match r with
  | PutCheckin _ => true
  | _ => false
  end.

(** The key of the two dicts a request is about; a body that does not
    parse is about none. *)
Definition device_of (r : Request) : option (option string) :=
  match r with
  | PutCheckin body => ci_UDID <$> body
  | PutCommand body => cd_UDID <$> body
  | PostCommand id _ | PostDeviceInfo id | PostInstallProfile id _
  | PostDeviceLock id _ _ | PostLostModeEnable id _ _ _ | PostLostModeDisable id
  | GetLostModeLocation id | PostPlaySound id | DeleteDevice id => Some (Some id)
  end.

(** What the two dicts hold under the key [k] is the same in both worlds. *)
Definition same_at (k : option string) (w w' : World) : Prop :=
  enrolled_devices w' !! k = enrolled_devices w !! k ∧
  pending_commands w' !! k = pending_commands w !! k.

(** The queued commands can be told apart by the draws of [uuid4] they come
    from: [ix k] lists, for the queue of [k], the number of the draw behind
    each command; no draw is used twice, in one queue or in two, and every
    draw has been made. *)
Definition ids_drawn (env : Env) (w : World) : Prop :=
  ∃ ix : option string → list nat,
    (∀ k, CommandUUID <$> queue_of (pending_commands w) k = uuid4 env <$> ix k) ∧
    (∀ k, NoDup (ix k)) ∧
    (∀ k n, n ∈ ix k → n < uuids_drawn w) ∧
    (∀ k k' n, n ∈ ix k → n ∈ ix k' → k = k').

(** A world in which what [ids_drawn] says has not been lost. *)
Definition keeps_ids_drawn (env : Env) (w w' : World) : Prop :=
  ids_drawn env w → ids_drawn env w'.

(** ** A concrete environment

    A clock, a UUID source, a push collaborator and a serialiser to run the
    handlers on concrete requests.  The serialiser writes plist-like tags
    and, as [plistlib.dumps] does, refuses a value that contains [None]. *)

Module Demo.

Fixpoint render (v : Value) : option string :=
  match v with
  | VNull => None
  | VBool true => Some "<true/>"
  | VBool false => Some "<false/>"
  | VInt z => Some ("<integer>" +:+ pretty z +:+ "</integer>")
  | VString s => Some ("<string>" +:+ s +:+ "</string>")
  | VData bs => Some ("<data>" +:+ hex bs +:+ "</data>")
  | VArray xs =>
      let fix items (xs : list Value) : option string :=
        match xs with
        | [] => Some ""
        | x :: xs' =>
            match render x, items xs' with
            | Some s, Some r => Some (s +:+ r)
            | _, _ => None
            end
        end in
      match items xs with
      | Some r => Some ("<array>" +:+ r +:+ "</array>")
      | None => None
      end
  | VDict kvs =>
      let fix entries (kvs : list (string * Value)) : option string :=
        match kvs with
        | [] => Some ""
        | (k, x) :: kvs' =>
            match render x, entries kvs' with
            | Some s, Some r => Some ("<key>" +:+ k +:+ "</key>" +:+ s +:+ r)
            | _, _ => None
            end
        end in
      match entries kvs with
      | Some r => Some ("<dict>" +:+ r +:+ "</dict>")
      | None => None
      end
  end.

Definition env : Env :=
  {| utcnow_isoformat n := "2024-05-01T10:00:" +:+ pretty n;
     uuid4 n := "uuid-" +:+ pretty n;
     (* every other push attempt raises *)
     apns_exchange n := if Nat.even n then ApnsResponse true "" else ApnsRaised;
     plistlib_dumps v := String.list_byte_of_string <$> render v |}.

Definition phone : Device :=
  {| udid := Some "D1"; token := Some "a1b2c3d4e5f6a7b8"; push_magic := Some "magic";
     unlock_token := None; enrolled_at := "2024-04-30T09:00:00";
     last_seen := "2024-04-30T09:30:00"; lost_mode_enabled := false;
     lost_mode_message := None; lost_mode_phone := None |}.

Definition lost_phone : Device :=
  {| udid := Some "D1"; token := Some "a1b2c3d4e5f6a7b8"; push_magic := Some "magic";
     unlock_token := None; enrolled_at := "2024-04-30T09:00:00";
     last_seen := "2024-04-30T09:30:00"; lost_mode_enabled := true;
     lost_mode_message := Some "Please call"; lost_mode_phone := Some "555-0100" |}.

Definition lock : MdmCommand :=
  {| CommandUUID := "c-1"; Command := [("RequestType", VString "DeviceLock")] |}.

Definition locate : MdmCommand :=
  {| CommandUUID := "c-2"; Command := [("RequestType", VString "DeviceLocation")] |}.

Definition world_with (d : Device) (q : list MdmCommand) : World :=
  {| enrolled_devices := {[Some "D1" := d]};
     pending_commands := {[Some "D1" := q]};
     clock_reads := 0; uuids_drawn := 0; apns_attempts := []; log := [] |}.

(** The same, after one push attempt: the next attempt is the one that
    raises. *)
Definition world_after_wake (d : Device) (q : list MdmCommand) : World :=
  {| enrolled_devices := {[Some "D1" := d]};
     pending_commands := {[Some "D1" := q]};
     clock_reads := 0; uuids_drawn := 0;
     apns_attempts := [{| pr_token := token d; pr_push_magic := push_magic d;
                          pr_topic := MDM_CONFIG_topic |}];
     log := [] |}.

(** The body of a command exchange of device [D1]. *)
Definition report (status command_uuid : option string) (error_chain : option Value) : CommandData :=
  {| cd_UDID := Some "D1"; cd_Status := status; cd_CommandUUID := command_uuid;
     cd_ErrorChain := error_chain; cd_QueryResponses := None |}.

Definition idle : CommandData := report None None None.

(** The body of a check-in of device [D1]. *)
Definition checkin (message_type : string) : CheckinData :=
  {| ci_MessageType := Some message_type; ci_UDID := Some "D1";
     ci_Token := Some [Byte.x01; Byte.xab]; ci_PushMagic := Some "magic-2";
     ci_UnlockToken := None |}.

End Demo.


(** * Properties *)

Create HintDb mdm discriminated.

(** Unfolds the monad and the primitives of the store. *)
Ltac unfold_handler :=
  cbv beta iota zeta delta
    [bind ret raise when get_world logger set_enrolled_devices
     set_pending_commands utcnow new_uuid apns_attempt parse_plist
     create_plist_response require_enrolled];
  cbn [fst snd enrolled_devices pending_commands clock_reads uuids_drawn
       apns_attempts log].

Ltac store_simpl :=
  cbn [fst snd enrolled_devices pending_commands clock_reads uuids_drawn
       apns_attempts log].

(** Rules to carry a reflexive and transitive relation on worlds through
    the monad. *)
Section Frame.

Variable R : World → World → Prop.
Hypothesis R_refl : ∀ w, R w w.
Hypothesis R_trans : ∀ w1 w2 w3, R w1 w2 → R w2 w3 → R w1 w3.

Lemma respects_ret {A} (a : A) : respects R (ret a).
Proof. intros w. apply R_refl. Qed.

Lemma respects_raise {A} e : respects R (@raise A e).
Proof. intros w. apply R_refl. Qed.

Lemma respects_get_world : respects R get_world.
Proof. intros w. apply R_refl. Qed.

Lemma respects_bind {A B} (m : M A) (k : A → M B) :
  respects R m → (∀ a, respects R (k a)) → respects R (bind m k).
Proof.
  intros Hm Hk w. unfold bind. specialize (Hm w).
  destruct (m w) as [[a|e] w1]; [|done].
  eapply R_trans; [exact Hm|apply Hk].
Qed.

End Frame.

Ltac respects_step :=
  lazymatch goal with
  | |- respects _ (bind _ _) => apply respects_bind; [eauto with mdm| |intros ?]
  | |- respects _ (let _ := _ in _) => cbv zeta
  | |- respects _ (when ?b _) => destruct b; cbn [when]
  | |- respects _ (if ?b then _ else _) => destruct b
  | |- respects _ (match ?x with _ => _ end) => destruct x
  | |- _ => solve [eauto with mdm]
  end.

Ltac as_respects :=
  lazymatch goal with
  | |- ?R ?w (?m ?w).2 => revert w; change (respects R m)
  end.

Section Properties.

Variable env : Env.

(** ** What the handlers do to the registry *)

Lemma same_enrollment_refl d : same_enrollment d d.
Proof. done. Qed.

Lemma keeps_enrollment_refl w : keeps_enrollment w w.
Proof. intros k d Hd. exists d. eauto using same_enrollment_refl. Qed.

Lemma keeps_enrollment_trans w1 w2 w3 :
  keeps_enrollment w1 w2 → keeps_enrollment w2 w3 → keeps_enrollment w1 w3.
Proof.
  intros H12 H23 k d3 Hd3.
  destruct (H23 k d3 Hd3) as (d2 & Hd2 & ? & ? & ? & ?).
  destruct (H12 k d2 Hd2) as (d1 & Hd1 & ? & ? & ? & ?).
  exists d1. unfold same_enrollment. intuition congruence.
Qed.

Lemma keeps_enrollment_same_registry w w' :
  enrolled_devices w' = enrolled_devices w → keeps_enrollment w w'.
Proof. intros Heq k d Hd. rewrite Heq in Hd. exists d. eauto using same_enrollment_refl. Qed.

Hint Resolve keeps_enrollment_refl keeps_enrollment_trans : mdm.
Hint Resolve respects_ret respects_raise respects_get_world : mdm.

Lemma keeps_logger r : respects keeps_enrollment (logger r).
Proof. intros w. by apply keeps_enrollment_same_registry. Qed.

Lemma keeps_utcnow : respects keeps_enrollment (utcnow env).
Proof. intros w. by apply keeps_enrollment_same_registry. Qed.

Lemma keeps_new_uuid : respects keeps_enrollment (new_uuid env).
Proof. intros w. by apply keeps_enrollment_same_registry. Qed.

Lemma keeps_apns_attempt r : respects keeps_enrollment (apns_attempt env r).
Proof. intros w. by apply keeps_enrollment_same_registry. Qed.

Lemma keeps_set_pending_commands f : respects keeps_enrollment (set_pending_commands f).
Proof. intros w. by apply keeps_enrollment_same_registry. Qed.

Lemma keeps_alter f k :
  (∀ d, same_enrollment d (f d)) →
  respects keeps_enrollment (set_enrolled_devices (alter f k)).
Proof.
  intros Hf w k' d'. cbn. rewrite lookup_alter.
  case_decide; [subst k'|by eauto using same_enrollment_refl].
  destruct (enrolled_devices w !! k) as [d|]; [|done].
  intros [= <-]. eauto.
Qed.

Lemma keeps_delete k : respects keeps_enrollment (set_enrolled_devices (delete k)).
Proof.
  intros w k' d'. cbn. rewrite lookup_delete_Some. intros [_ Hd].
  eauto using same_enrollment_refl.
Qed.

Lemma same_enrollment_set_last_seen t d : same_enrollment d (set_last_seen t d).
Proof. done. Qed.

Lemma same_enrollment_set_lost_mode enabled message phone d :
  same_enrollment d (set_lost_mode enabled message phone d).
Proof. done. Qed.

Hint Resolve keeps_logger keeps_utcnow keeps_new_uuid keeps_apns_attempt
  keeps_set_pending_commands keeps_alter keeps_delete
  same_enrollment_set_last_seen same_enrollment_set_lost_mode : mdm.

Lemma keeps_parse_plist {A} (body : option A) : respects keeps_enrollment (parse_plist body).
Proof. unfold parse_plist. repeat respects_step. Qed.

Lemma keeps_create_plist_response c :
  respects keeps_enrollment (create_plist_response env c).
Proof. unfold create_plist_response. repeat respects_step. Qed.

Lemma keeps_require_enrolled udid : respects keeps_enrollment (require_enrolled udid).
Proof. unfold require_enrolled. repeat respects_step. Qed.

Lemma keeps_send_apns_notification token push_magic topic :
  respects keeps_enrollment (send_apns_notification env token push_magic topic).
Proof. unfold send_apns_notification. repeat respects_step. Qed.

Hint Resolve keeps_parse_plist keeps_create_plist_response keeps_require_enrolled
  keeps_send_apns_notification : mdm.

Lemma keeps_send_command udid command :
  respects keeps_enrollment (send_command env udid command).
Proof. unfold send_command. repeat respects_step. Qed.

Hint Resolve keeps_send_command : mdm.

Lemma keeps_mdm_command body : respects keeps_enrollment (mdm_command env body).
Proof. unfold mdm_command. repeat respects_step. Qed.

(** ** The wake dispatch *)

Lemma send_apns_notification_run token push_magic topic w :
  send_apns_notification env token push_magic topic w =
  (Returned (push_result token (apns_exchange env (length (apns_attempts w)))),
   {| enrolled_devices := enrolled_devices w;
      pending_commands := pending_commands w;
      clock_reads := clock_reads w;
      uuids_drawn := uuids_drawn w;
      apns_attempts :=
        apns_attempts w ++ [{| pr_token := token; pr_push_magic := push_magic;
                               pr_topic := topic |}];
      log := log w ++ [push_log token (apns_exchange env (length (apns_attempts w)))] |}).
Proof.
  unfold send_apns_notification, push_result, push_log. unfold_handler.
  destruct (apns_exchange _) as [|[] description]; [done| |done].
  by destruct token.
Qed.

(** ** Enqueueing *)

Lemma send_command_unknown udid command w :
  enrolled_devices w !! Some udid = None →
  send_command env udid command w = (Raised (HTTPException 404 "Device not found"), w).
Proof.
  intros Hnone. unfold send_command. unfold_handler. by rewrite Hnone.
Qed.

Lemma send_command_run udid command w device :
  enrolled_devices w !! Some udid = Some device →
  send_command env udid command w =
  (Returned {| status := "queued"; command_uuid := uuid4 env (uuids_drawn w);
               apns_sent := push_result (token device)
                              (apns_exchange env (length (apns_attempts w))) |},
   {| enrolled_devices := enrolled_devices w;
      pending_commands :=
        <[Some udid := queue_of (pending_commands w) (Some udid)
                       ++ [{| CommandUUID := uuid4 env (uuids_drawn w);
                              Command := command |}]]> (pending_commands w);
      clock_reads := clock_reads w;
      uuids_drawn := S (uuids_drawn w);
      apns_attempts :=
        apns_attempts w ++ [{| pr_token := token device;
                               pr_push_magic := push_magic device;
                               pr_topic := MDM_CONFIG_topic |}];
      log := log w ++ [LogQueued udid (dict_get "RequestType" command);
                       push_log (token device)
                         (apns_exchange env (length (apns_attempts w)))] |}).
Proof.
  intros Hdev. unfold send_command. unfold_handler. rewrite Hdev.
  unfold_handler. unfold queue_of.
  destruct (pending_commands w !! Some udid) as [q|] eqn:Hq.
  - rewrite bool_decide_eq_false_2 by done.
    rewrite send_apns_notification_run. cbn. rewrite <- app_assoc.
    do 3 f_equal. apply map_eq; intros k.
    destruct (decide (k = Some udid)) as [->|Hne].
    + by rewrite lookup_alter_eq, lookup_insert_eq, Hq.
    + by rewrite lookup_alter_ne, lookup_insert_ne.
  - rewrite bool_decide_eq_true_2 by done.
    rewrite send_apns_notification_run. cbn. rewrite <- app_assoc.
    by rewrite alter_insert_eq.
Qed.

(** ** The check-in handler *)

Lemma mdm_checkin_run data w :
  mdm_checkin env (Some data) w =
  if decide (ci_MessageType data = Some "Authenticate") then
    (Returned (empty_response 200),
     {| enrolled_devices := enrolled_devices w;
        pending_commands := pending_commands w;
        clock_reads := clock_reads w; uuids_drawn := uuids_drawn w;
        apns_attempts := apns_attempts w;
        log := log w ++ [LogCheckIn (ci_MessageType data) (ci_UDID data);
                         LogAuthenticating (ci_UDID data)] |})
  else if decide (ci_MessageType data = Some "TokenUpdate") then
    (Returned (empty_response 200),
     {| enrolled_devices :=
          <[ci_UDID data := token_update_entry env data w]> (enrolled_devices w);
        pending_commands := pending_commands w;
        clock_reads := S (S (clock_reads w)); uuids_drawn := uuids_drawn w;
        apns_attempts := apns_attempts w;
        log := log w ++ [LogCheckIn (ci_MessageType data) (ci_UDID data);
                         LogTokenUpdated (ci_UDID data)] |})
  else if decide (ci_MessageType data = Some "CheckOut") then
    (Returned (empty_response 200),
     {| enrolled_devices := delete (ci_UDID data) (enrolled_devices w);
        pending_commands := pending_commands w;
        clock_reads := clock_reads w; uuids_drawn := uuids_drawn w;
        apns_attempts := apns_attempts w;
        log := log w ++ [LogCheckIn (ci_MessageType data) (ci_UDID data);
                         LogCheckedOut (ci_UDID data)] |})
  else
    (Returned (empty_response 400),
     {| enrolled_devices := enrolled_devices w;
        pending_commands := pending_commands w;
        clock_reads := clock_reads w; uuids_drawn := uuids_drawn w;
        apns_attempts := apns_attempts w;
        log := log w ++ [LogCheckIn (ci_MessageType data) (ci_UDID data)] |}).
Proof.
  unfold mdm_checkin, token_update_entry. unfold_handler.
  destruct (decide (ci_MessageType data = Some "Authenticate")).
  { store_simpl. by rewrite <- app_assoc. }
  destruct (decide (ci_MessageType data = Some "TokenUpdate")).
  { store_simpl. by rewrite <- app_assoc. }
  destruct (decide (ci_MessageType data = Some "CheckOut")); [|done].
  store_simpl. case_bool_decide as Hin; store_simpl; rewrite <- app_assoc; [done|].
  rewrite delete_id; [done|]. by apply eq_None_not_Some.
Qed.

(** ** The command exchange *)

Lemma mdm_command_run data w :
  mdm_command env (Some data) w =
  match pending_commands w !! cd_UDID data with
  | Some (command :: rest) =>
      (deliver env command,
       {| enrolled_devices := touched env (cd_UDID data) w;
          pending_commands := <[cd_UDID data := rest]> (pending_commands w);
          clock_reads := clock_after_touch (cd_UDID data) w;
          uuids_drawn := uuids_drawn w;
          apns_attempts := apns_attempts w;
          log := log w
                 ++ LogCommandResponse (cd_UDID data) (cd_Status data) (cd_CommandUUID data)
                    :: status_log data
                 ++ sending_log (cd_UDID data) command |})
  | _ =>
      (Returned (empty_response 200),
       {| enrolled_devices := touched env (cd_UDID data) w;
          pending_commands := pending_commands w;
          clock_reads := clock_after_touch (cd_UDID data) w;
          uuids_drawn := uuids_drawn w;
          apns_attempts := apns_attempts w;
          log := log w
                 ++ LogCommandResponse (cd_UDID data) (cd_Status data) (cd_CommandUUID data)
                    :: status_log data |})
  end.
Proof.
  unfold mdm_command, touched, clock_after_touch, status_log, deliver, sending_log.
  unfold_handler.
  destruct (bool_decide (is_Some (enrolled_devices w !! cd_UDID data)));
    store_simpl;
    (destruct (decide (cd_Status data = Some "Acknowledged"));
     [destruct (cd_QueryResponses data)
     |destruct (decide (cd_Status data = Some "Error"))]);
    store_simpl;
    (destruct (pending_commands w !! cd_UDID data) as [[|command rest]|];
     [| store_simpl; destruct (dict_get "RequestType" (Command command));
        [store_simpl; destruct (plistlib_dumps env (mdm_command_dict command))|] |]);
    store_simpl; rewrite <- ?app_assoc; reflexivity.
Qed.

Lemma mdm_command_queue data w :
  (mdm_command env (Some data) w).1 =
    match queue_of (pending_commands w) (cd_UDID data) with
    | command :: _ => deliver env command
    | [] => Returned (empty_response 200)
    end ∧
  queue_of (pending_commands (mdm_command env (Some data) w).2) (cd_UDID data) =
    tail (queue_of (pending_commands w) (cd_UDID data)).
Proof.
  rewrite mdm_command_run. unfold queue_of.
  destruct (pending_commands w !! cd_UDID data) as [[|command rest]|] eqn:Hq;
    cbn; rewrite ?Hq, ?lookup_insert_eq; done.
Qed.

Lemma mdm_command_enrolled data w k :
  is_Some (enrolled_devices (mdm_command env (Some data) w).2 !! k) ↔
  is_Some (enrolled_devices w !! k).
Proof.
  rewrite mdm_command_run.
  assert (is_Some (touched env (cd_UDID data) w !! k) ↔ is_Some (enrolled_devices w !! k)).
  { unfold touched. case_bool_decide; [|done]. apply lookup_alter_is_Some. }
  by destruct (pending_commands w !! cd_UDID data) as [[|command rest]|].
Qed.

(** C1, as the code has it: every exchange pops the head of the device's
    queue.  Of two exchanges in a row the first answers with the oldest
    queued command and the second with the next one, or with an empty 200
    when nothing is left; a popped command is stored nowhere and is not
    delivered again. *)
Theorem two_exchanges_pop_two_commands first second w :
  cd_UDID second = cd_UDID first →
  let r1 := mdm_command env (Some first) w in
  let r2 := mdm_command env (Some second) r1.2 in
  match queue_of (pending_commands w) (cd_UDID first) with
  | c1 :: c2 :: rest =>
      r1.1 = deliver env c1 ∧ r2.1 = deliver env c2 ∧
      queue_of (pending_commands r1.2) (cd_UDID first) = c2 :: rest ∧
      queue_of (pending_commands r2.2) (cd_UDID first) = rest
  | [c1] =>
      r1.1 = deliver env c1 ∧ r2.1 = Returned (empty_response 200) ∧
      queue_of (pending_commands r1.2) (cd_UDID first) = [] ∧
      queue_of (pending_commands r2.2) (cd_UDID first) = []
  | [] =>
      r1.1 = Returned (empty_response 200) ∧ r2.1 = Returned (empty_response 200) ∧
      queue_of (pending_commands r1.2) (cd_UDID first) = [] ∧
      queue_of (pending_commands r2.2) (cd_UDID first) = []
  end.
Proof.
  intros Hudid r1 r2.
  destruct (mdm_command_queue first w) as [Hr1 Hq1]. fold r1 in Hr1, Hq1.
  destruct (mdm_command_queue second r1.2) as [Hr2 Hq2]. fold r2 in Hr2, Hq2.
  rewrite Hudid in Hr2, Hq2. rewrite Hq1 in Hr2, Hq2.
  destruct (queue_of (pending_commands w) (cd_UDID first)) as [|c1 [|c2 rest]];
    cbn in *; done.
Qed.

(** C5, as the code has it: a status of [Acknowledged] or [Error] is only
    written to the log (for [Error] with the error chain, [[]] when the key
    is absent).  Nothing of it is stored: the response, the registry, the
    queues and the counters are those of the same exchange without a
    status report. *)
Theorem status_is_only_logged data w :
  let r := mdm_command env (Some data) w in
  let r0 := mdm_command env (Some (without_status data)) w in
  (r.1 = r0.1 ∧
   enrolled_devices r.2 = enrolled_devices r0.2 ∧
   pending_commands r.2 = pending_commands r0.2 ∧
   clock_reads r.2 = clock_reads r0.2 ∧
   uuids_drawn r.2 = uuids_drawn r0.2 ∧
   apns_attempts r.2 = apns_attempts r0.2) ∧
  (cd_Status data = Some "Acknowledged" →
   LogAcknowledged (cd_CommandUUID data) (cd_UDID data) ∈ log r.2) ∧
  (cd_Status data = Some "Error" →
   LogCommandFailed (cd_CommandUUID data) (default (VArray []) (cd_ErrorChain data))
     ∈ log r.2).
Proof.
  intros r r0. subst r r0. rewrite !mdm_command_run.
  change (cd_UDID (without_status data)) with (cd_UDID data).
  split; [|split].
  - by destruct (pending_commands w !! cd_UDID data) as [[|command rest]|].
  - intros Hack.
    assert (LogAcknowledged (cd_CommandUUID data) (cd_UDID data) ∈ status_log data).
    { unfold status_log. rewrite decide_True by done. set_solver. }
    destruct (pending_commands w !! cd_UDID data) as [[|command rest]|];
      cbn; set_solver.
  - intros Herr.
    assert (LogCommandFailed (cd_CommandUUID data)
              (default (VArray []) (cd_ErrorChain data)) ∈ status_log data).
    { unfold status_log. rewrite decide_False by congruence.
      rewrite decide_True by done. set_solver. }
    destruct (pending_commands w !! cd_UDID data) as [[|command rest]|];
      cbn; set_solver.
Qed.

(** ** First in, first out *)





(** C3, as the code has it: a [CheckOut] returns 200 and deletes the key of
    the device from [enrolled_devices]; [pending_commands] is not touched, so
    whatever was queued for the device stays queued. *)
Theorem checkout_removes_device_only data w :
  ci_MessageType data = Some "CheckOut" →
  (mdm_checkin env (Some data) w).1 = Returned (empty_response 200) ∧
  enrolled_devices (mdm_checkin env (Some data) w).2
    = delete (ci_UDID data) (enrolled_devices w) ∧
  enrolled_devices (mdm_checkin env (Some data) w).2 !! ci_UDID data = None ∧
  pending_commands (mdm_checkin env (Some data) w).2 = pending_commands w.
Proof.
  intros Hmt. rewrite mdm_checkin_run.
  repeat case_decide; try congruence. cbn.
  by rewrite lookup_delete_eq.
Qed.

(** C7, as the code has it: a [TokenUpdate] writes a whole new entry under
    the UDID, whether or not one was there: token, push magic and unlock
    token come from the message, [enrolled_at] and [last_seen] are the next
    two readings of the clock, [lost_mode_enabled] is false and the two
    lost-mode keys are absent.  The entries of other devices and
    [pending_commands] are unchanged. *)
Theorem token_update_replaces_entry data w :
  ci_MessageType data = Some "TokenUpdate" →
  (∃ d,
     enrolled_devices (mdm_checkin env (Some data) w).2 !! ci_UDID data = Some d ∧
     udid d = ci_UDID data ∧
     token d = hex_if_truthy (ci_Token data) ∧
     push_magic d = ci_PushMagic data ∧
     unlock_token d = hex_if_truthy (ci_UnlockToken data) ∧
     enrolled_at d = utcnow_isoformat env (clock_reads w) ∧
     last_seen d = utcnow_isoformat env (S (clock_reads w)) ∧
     lost_mode_enabled d = false ∧
     lost_mode_message d = None ∧
     lost_mode_phone d = None) ∧
  (∀ k, k ≠ ci_UDID data →
        enrolled_devices (mdm_checkin env (Some data) w).2 !! k
          = enrolled_devices w !! k) ∧
  pending_commands (mdm_checkin env (Some data) w).2 = pending_commands w.
Proof.
  intros Hmt. rewrite mdm_checkin_run.
  repeat case_decide; try congruence. cbn. split; [|split; [|done]].
  - exists (token_update_entry env data w).
    by rewrite lookup_insert_eq.
  - intros k Hk. by rewrite lookup_insert_ne.
Qed.

(** C4, as the code has it: after a [CheckOut] of a device, a command
    exchange carrying its UDID finds no registry entry and creates none
    (the clock is not read, no [last_seen] is written), but the queue is
    served as for any device: a queued command is popped and answered with,
    and only when nothing is queued is the answer an empty 200 with both
    dicts unchanged. *)
Theorem exchange_after_checkout checkout data w :
  ci_MessageType checkout = Some "CheckOut" →
  cd_UDID data = ci_UDID checkout →
  let w1 := (mdm_checkin env (Some checkout) w).2 in
  let r := mdm_command env (Some data) w1 in
  enrolled_devices r.2 = enrolled_devices w1 ∧
  enrolled_devices r.2 !! cd_UDID data = None ∧
  clock_reads r.2 = clock_reads w1 ∧
  match pending_commands w !! cd_UDID data with
  | Some (command :: rest) =>
      r.1 = deliver env command ∧
      pending_commands r.2 = <[cd_UDID data := rest]> (pending_commands w)
  | _ =>
      r.1 = Returned (empty_response 200) ∧
      pending_commands r.2 = pending_commands w
  end.
Proof.
  intros Hmt Hudid w1 r.
  destruct (checkout_removes_device_only checkout w Hmt) as (_ & _ & Hgone & Hq).
  fold w1 in Hgone, Hq. rewrite <- Hudid in Hgone.
  assert (touched env (cd_UDID data) w1 = enrolled_devices w1) as Htouched.
  { unfold touched. rewrite Hgone. rewrite bool_decide_eq_false_2; [done|].
    by intros [? ?]. }
  assert (clock_after_touch (cd_UDID data) w1 = clock_reads w1) as Hclock.
  { unfold clock_after_touch. rewrite Hgone. rewrite bool_decide_eq_false_2; [done|].
    by intros [? ?]. }
  subst r. rewrite mdm_command_run, Hq.
  destruct (pending_commands w !! cd_UDID data) as [[|command rest]|];
    cbn; rewrite ?Htouched, ?Hclock, ?Hgone; done.
Qed.

(** C6: [send_command] raises if and only if the device id is not a key of
    [enrolled_devices]; the exception is then the 404 "Device not found",
    and the world is left as it was: the command queue is unchanged and no
    UUID has been drawn. *)
Theorem send_command_fails_iff_unknown udid command w :
  ((∃ e, (send_command env udid command w).1 = Raised e) ↔
   enrolled_devices w !! Some udid = None) ∧
  (∀ e, (send_command env udid command w).1 = Raised e →
        e = HTTPException 404 "Device not found" ∧
        (send_command env udid command w).2 = w ∧
        pending_commands (send_command env udid command w).2 = pending_commands w ∧
        uuids_drawn (send_command env udid command w).2 = uuids_drawn w).
Proof.
  destruct (enrolled_devices w !! Some udid) as [device|] eqn:Hdev.
  - rewrite (send_command_run _ _ _ _ Hdev). cbn. split.
    + split; [intros [e He]; discriminate | discriminate].
    + intros e He. discriminate.
  - rewrite (send_command_unknown _ _ _ Hdev). cbn. split.
    + split; eauto.
    + intros e [= <-]. done.
Qed.

(** C8: when the push exchange raises or answers with an unsuccessful
    response, [send_apns_notification] returns [False] rather than raising,
    and [send_command] returns its receipt with [apns_sent] false while the
    new command sits at the tail of the device's queue. *)
Theorem push_failure_keeps_command_queued udid command w device :
  enrolled_devices w !! Some udid = Some device →
  (apns_exchange env (length (apns_attempts w)) = ApnsRaised ∨
   ∃ description,
     apns_exchange env (length (apns_attempts w)) = ApnsResponse false description) →
  (∀ token push_magic topic,
     (send_apns_notification env token push_magic topic w).1 = Returned false) ∧
  ∃ w',
    send_command env udid command w =
      (Returned {| status := "queued"; command_uuid := uuid4 env (uuids_drawn w);
                   apns_sent := false |}, w') ∧
    pending_commands w' !! Some udid =
      Some (queue_of (pending_commands w) (Some udid)
            ++ [{| CommandUUID := uuid4 env (uuids_drawn w); Command := command |}]).
Proof.
  intros Hdev Hfail.
  assert (∀ token, push_result token (apns_exchange env (length (apns_attempts w))) = false)
    as Hres.
  { intros token. by destruct Hfail as [-> | [description ->]]. }
  split.
  - intros token push_magic topic.
    by rewrite send_apns_notification_run, Hres.
  - rewrite (send_command_run _ _ _ _ Hdev), Hres.
    eexists. split; [reflexivity|]. cbn. by rewrite lookup_insert_eq.
Qed.

(** C10: [disable_lost_mode] on a registered device whose [lost_mode_enabled]
    is false raises the 400 "Lost Mode is not enabled" and leaves the whole
    world as it was: the registry entry, the queues and the list of push
    attempts are unchanged. *)
Theorem disable_lost_mode_not_enabled udid w device :
  enrolled_devices w !! Some udid = Some device →
  lost_mode_enabled device = false →
  disable_lost_mode env udid w =
    (Raised (HTTPException 400 "Lost Mode is not enabled"), w).
Proof.
  intros Hdev Hflag. unfold disable_lost_mode. unfold_handler.
  rewrite Hdev. rewrite bool_decide_eq_true_2 by eauto.
  rewrite Hdev. cbn [from_option]. by rewrite Hflag.
Qed.

(** ** The registry along a run *)

Lemma keeps_handle r w :
  (∀ data, r = PutCheckin (Some data) → ci_MessageType data ≠ Some "TokenUpdate") →
  keeps_enrollment w (handle env r w).
Proof.
  intros Hr. destruct r; cbn [handle].
  - destruct body as [data|]; [|by apply keeps_enrollment_same_registry].
    specialize (Hr data eq_refl). rewrite mdm_checkin_run.
    repeat case_decide; try done; cbn;
      try (by apply keeps_enrollment_same_registry).
    apply (keeps_delete (ci_UDID data) w).
  - apply keeps_mdm_command.
  - apply keeps_send_command.
  - apply keeps_send_command.
  - as_respects. unfold install_profile. repeat respects_step.
  - as_respects. unfold device_lock. repeat respects_step.
  - as_respects. unfold enable_lost_mode. repeat respects_step.
  - as_respects. unfold disable_lost_mode. repeat respects_step.
  - as_respects. unfold get_lost_mode_location. repeat respects_step.
  - as_respects. unfold play_lost_mode_sound. repeat respects_step.
  - as_respects. unfold unenroll_device. repeat respects_step.
Qed.

Lemma run_snoc rs r w : run env (rs ++ [r]) w = handle env r (run env rs w).
Proof. unfold run. by rewrite foldl_snoc. Qed.

Lemma registered_by_handle rs r w :
  registered_by rs w → registered_by (rs ++ [r]) (handle env r w).
Proof.
  intros Hinv k d' Hd'.
  assert ((∃ data, r = PutCheckin (Some data) ∧
                   ci_MessageType data = Some "TokenUpdate") ∨
          (∀ data, r = PutCheckin (Some data) →
                   ci_MessageType data ≠ Some "TokenUpdate"))
    as [(data & -> & Hmt)|Hother].
  { destruct r as [[data|]| | | | | | | | | |]; try (by right).
    destruct (decide (ci_MessageType data = Some "TokenUpdate"));
      [left; eauto | right; by intros ? [= <-]]. }
  - cbn [handle] in Hd'. rewrite mdm_checkin_run in Hd'.
    repeat case_decide; try congruence. cbn in Hd'.
    apply lookup_insert_Some in Hd' as [[<- <-]|[Hne Hd']].
    + exists data. rewrite elem_of_app, list_elem_of_singleton. by eauto 10.
    + destruct (Hinv k d' Hd') as (data' & Hin & Hrest).
      exists data'. rewrite elem_of_app. by eauto.
  - destruct (keeps_handle r w Hother k d' Hd') as (d & Hd & Hu & Ht & Hp & Hl).
    destruct (Hinv k d Hd) as (data' & Hin & ? & ? & ? & ? & ? & ?).
    exists data'. rewrite elem_of_app. intuition congruence.
Qed.

Lemma registered_by_run rs : registered_by rs (run env rs initial_world).
Proof.
  induction rs as [|r rs IH] using rev_ind.
  - intros k d Hd. cbn in Hd. by rewrite lookup_empty in Hd.
  - rewrite run_snoc. by apply registered_by_handle.
Qed.

(** C9: an [Authenticate] is answered with a 200 and leaves the registry
    (and the queues) as they were; and along any run of the server from its
    start, a key of [enrolled_devices] is there only if a [TokenUpdate] for
    that UDID is among the requests processed, and its entry holds the
    token, push magic and unlock token which such a [TokenUpdate]
    supplied. *)
Theorem registry_entries_come_from_token_updates :
  (∀ data w,
     ci_MessageType data = Some "Authenticate" →
     (mdm_checkin env (Some data) w).1 = Returned (empty_response 200) ∧
     enrolled_devices (mdm_checkin env (Some data) w).2 = enrolled_devices w ∧
     pending_commands (mdm_checkin env (Some data) w).2 = pending_commands w) ∧
  (∀ rs k d,
     enrolled_devices (run env rs initial_world) !! k = Some d →
     ∃ data,
       PutCheckin (Some data) ∈ rs ∧
       ci_MessageType data = Some "TokenUpdate" ∧
       ci_UDID data = k ∧
       udid d = k ∧
       token d = hex_if_truthy (ci_Token data) ∧
       push_magic d = ci_PushMagic data ∧
       unlock_token d = hex_if_truthy (ci_UnlockToken data)).
Proof.
  split.
  - intros data w Hmt. rewrite mdm_checkin_run. by rewrite decide_True.
  - intros rs. apply registered_by_run.
Qed.

End Properties.

(** ** The theorems at concrete requests *)


Lemma two_exchanges_pop_two_commands_witness :
  (mdm_command Demo.env (Some Demo.idle)
     (Demo.world_with Demo.phone [Demo.lock; Demo.locate])).1
    = deliver Demo.env Demo.lock ∧
  (mdm_command Demo.env (Some Demo.idle)
     (mdm_command Demo.env (Some Demo.idle)
        (Demo.world_with Demo.phone [Demo.lock; Demo.locate])).2).1
    = deliver Demo.env Demo.locate.
Proof.
  pose proof (two_exchanges_pop_two_commands Demo.env Demo.idle Demo.idle
                (Demo.world_with Demo.phone [Demo.lock; Demo.locate]) eq_refl)
    as (H1 & H2 & _).
  exact (conj H1 H2).
Defined.

Lemma checkout_removes_device_only_witness :
  enrolled_devices
    (mdm_checkin Demo.env (Some (Demo.checkin "CheckOut"))
       (Demo.world_with Demo.phone [Demo.lock])).2 !! Some "D1" = None ∧
  pending_commands
    (mdm_checkin Demo.env (Some (Demo.checkin "CheckOut"))
       (Demo.world_with Demo.phone [Demo.lock])).2 !! Some "D1" = Some [Demo.lock].
Proof.
  destruct (checkout_removes_device_only Demo.env (Demo.checkin "CheckOut")
              (Demo.world_with Demo.phone [Demo.lock]) eq_refl)
    as (_ & _ & Hgone & Hqueue).
  split; [exact Hgone|]. rewrite Hqueue. reflexivity.
Defined.

Lemma exchange_after_checkout_witness :
  (mdm_command Demo.env (Some Demo.idle)
     (mdm_checkin Demo.env (Some (Demo.checkin "CheckOut"))
        (Demo.world_with Demo.phone [Demo.lock])).2).1
  = deliver Demo.env Demo.lock.
Proof.
  pose proof (exchange_after_checkout Demo.env (Demo.checkin "CheckOut") Demo.idle
                (Demo.world_with Demo.phone [Demo.lock]) eq_refl eq_refl)
    as (_ & _ & _ & H).
  exact (proj1 H).
Defined.

Lemma status_is_only_logged_witness :
  LogAcknowledged (Some "c-1") (Some "D1")
    ∈ log (mdm_command Demo.env
             (Some (Demo.report (Some "Acknowledged") (Some "c-1") None))
             (Demo.world_with Demo.phone [])).2 ∧
  LogCommandFailed (Some "c-1") (VArray [])
    ∈ log (mdm_command Demo.env
             (Some (Demo.report (Some "Error") (Some "c-1") None))
             (Demo.world_with Demo.phone [])).2.
Proof.
  split.
  - apply (status_is_only_logged Demo.env
             (Demo.report (Some "Acknowledged") (Some "c-1") None)
             (Demo.world_with Demo.phone [])).
    reflexivity.
  - apply (status_is_only_logged Demo.env
             (Demo.report (Some "Error") (Some "c-1") None)
             (Demo.world_with Demo.phone [])).
    reflexivity.
Defined.

Lemma token_update_replaces_entry_witness :
  ∃ d,
    enrolled_devices
      (mdm_checkin Demo.env (Some (Demo.checkin "TokenUpdate"))
         (Demo.world_with Demo.lost_phone [])).2 !! Some "D1" = Some d ∧
    token d = Some "01ab" ∧
    enrolled_at d = "2024-05-01T10:00:0" ∧
    last_seen d = "2024-05-01T10:00:1" ∧
    lost_mode_enabled d = false ∧
    lost_mode_message d = None.
Proof.
  destruct (token_update_replaces_entry Demo.env (Demo.checkin "TokenUpdate")
              (Demo.world_with Demo.lost_phone []) eq_refl)
    as ((d & Hd & _ & Htoken & _ & _ & Hat & Hseen & Hflag & Hmsg & _) & _).
  exists d. repeat split; assumption.
Defined.

Lemma push_failure_keeps_command_queued_witness :
  ∃ w',
    send_command Demo.env "D1" (Command Demo.locate)
      (Demo.world_after_wake Demo.phone [Demo.lock])
    = (Returned {| status := "queued"; command_uuid := "uuid-0"; apns_sent := false |},
       w') ∧
    pending_commands w' !! Some "D1"
    = Some [Demo.lock; {| CommandUUID := "uuid-0"; Command := Command Demo.locate |}].
Proof.
  apply (push_failure_keeps_command_queued Demo.env "D1" (Command Demo.locate)
           (Demo.world_after_wake Demo.phone [Demo.lock]) Demo.phone).
  - reflexivity.
  - left. reflexivity.
Defined.

Lemma disable_lost_mode_not_enabled_witness :
  disable_lost_mode Demo.env "D1" (Demo.world_with Demo.phone [Demo.lock])
  = (Raised (HTTPException 400 "Lost Mode is not enabled"),
     Demo.world_with Demo.phone [Demo.lock]).
Proof.
  apply (disable_lost_mode_not_enabled Demo.env "D1"
           (Demo.world_with Demo.phone [Demo.lock]) Demo.phone);
    reflexivity.
Defined.

Lemma registry_entries_come_from_token_updates_witness :
  ∃ data,
    PutCheckin (Some data)
      ∈ [PutCheckin (Some (Demo.checkin "Authenticate"));
         PutCheckin (Some (Demo.checkin "TokenUpdate"));
         PostDeviceLock "D1" None None;
         PutCommand (Some Demo.idle)] ∧
    ci_MessageType data = Some "TokenUpdate" ∧
    ci_UDID data = Some "D1" ∧
    hex_if_truthy (ci_Token data) = Some "01ab".
Proof.
  destruct (proj2 (registry_entries_come_from_token_updates Demo.env)
              [PutCheckin (Some (Demo.checkin "Authenticate"));
               PutCheckin (Some (Demo.checkin "TokenUpdate"));
               PostDeviceLock "D1" None None;
               PutCommand (Some Demo.idle)]
              (Some "D1")
              {| udid := Some "D1"; token := Some "01ab"; push_magic := Some "magic-2";
                 unlock_token := None; enrolled_at := "2024-05-01T10:00:0";
                 last_seen := "2024-05-01T10:00:2"; lost_mode_enabled := false;
                 lost_mode_message := None; lost_mode_phone := None |}
              eq_refl)
    as (data & Hin & Hmt & Hudid & _ & Htoken & _).
  exists data. repeat split; try assumption. symmetry. exact Htoken.
Defined.

Lemma send_command_fails_iff_unknown_witness :
  enrolled_devices (Demo.world_with Demo.phone [Demo.lock]) !! Some "D2" = None ∧
  (send_command Demo.env "D2" (Command Demo.locate)
     (Demo.world_with Demo.phone [Demo.lock])).2 =
    Demo.world_with Demo.phone [Demo.lock].
Proof.
  split; [reflexivity|].
  apply (send_command_fails_iff_unknown Demo.env "D2" (Command Demo.locate)
           (Demo.world_with Demo.phone [Demo.lock]))
    with (e := HTTPException 404 "Device not found").
  reflexivity.
Defined.


(** ** Where the server departs from the design

    The design keeps an in-flight command per device, stores the outcome a
    device reports, purges the queue at check-out, refuses exchanges of
    unknown devices, upserts at a [TokenUpdate] and gives every command a
    request type.  The server has none of these mechanisms; each lemma runs
    it on a concrete input. *)


(** C1 read literally: with [lock] and [locate] queued, two exchanges in a
    row with no status would answer the same and leave the queue alone.
    The second exchange answers with [locate]. *)
Lemma redelivery_counterexample :
  let w := Demo.world_with Demo.phone [Demo.lock; Demo.locate] in
  let r1 := mdm_command Demo.env (Some Demo.idle) w in
  let r2 := mdm_command Demo.env (Some Demo.idle) r1.2 in
  ¬ (r2.1 = r1.1 ∧ pending_commands r2.2 = pending_commands r1.2).
Proof.
  intros w r1 r2 [Hsame _]. vm_compute in Hsame. discriminate Hsame.
Qed.

(** C3 read literally: after a [CheckOut] nothing would remain queued for
    the device.  [lock] is still in its queue. *)
Lemma checkout_purge_counterexample :
  let w := Demo.world_with Demo.phone [Demo.lock] in
  let w' := (mdm_checkin Demo.env (Some (Demo.checkin "CheckOut")) w).2 in
  ¬ (enrolled_devices w' !! Some "D1" = None ∧
     queue_of (pending_commands w') (Some "D1") = []).
Proof.
  intros w w' [_ Hpurged]. vm_compute in Hpurged. discriminate Hpurged.
Qed.

(** C4 read literally: an exchange after the [CheckOut] would answer as for
    a device the server knows nothing of, an empty 200, and leave the queue
    alone.  It answers with [lock] and pops it. *)
Lemma exchange_after_checkout_counterexample :
  let w := Demo.world_with Demo.phone [Demo.lock] in
  let w1 := (mdm_checkin Demo.env (Some (Demo.checkin "CheckOut")) w).2 in
  let r := mdm_command Demo.env (Some Demo.idle) w1 in
  ¬ (r.1 = Returned (empty_response 200) ∧
     pending_commands r.2 = pending_commands w1).
Proof.
  intros w w1 r [Hempty _]. vm_compute in Hempty. discriminate Hempty.
Qed.

(** C5 read literally: once [lock] has been delivered, a report on it would
    leave a record of that command with its outcome in the server's state.
    No queue holds a command with that id afterwards, and the two dicts
    after [Acknowledged] are those after [Error]. *)
Lemma status_not_stored_counterexample :
  let w := Demo.world_with Demo.phone [Demo.lock] in
  let w1 := (mdm_command Demo.env (Some Demo.idle) w).2 in
  let acknowledged :=
    mdm_command Demo.env
      (Some (Demo.report (Some "Acknowledged") (Some "c-1") None)) w1 in
  let failed :=
    mdm_command Demo.env
      (Some (Demo.report (Some "Error") (Some "c-1")
               (Some (VArray [VString "NotSupported"])))) w1 in
  ¬ (∃ k q c, pending_commands acknowledged.2 !! k = Some q ∧ c ∈ q ∧
              CommandUUID c = "c-1") ∧
  enrolled_devices acknowledged.2 = enrolled_devices failed.2 ∧
  pending_commands acknowledged.2 = pending_commands failed.2.
Proof.
  intros w w1 acknowledged failed.
  assert (pending_commands acknowledged.2 = {[Some "D1" := []]}) as Hq
    by reflexivity.
  split; [|split; reflexivity].
  intros (k & q & c & Hk & Hc & _). rewrite Hq in Hk.
  apply lookup_singleton_Some in Hk as [_ <-].
  by apply elem_of_nil in Hc.
Qed.

(** C7 read literally: a [TokenUpdate] for a device in lost mode would keep
    its enrollment timestamp and its lost-mode flag, message and phone.
    The new entry has the flag false. *)
Lemma token_update_frame_counterexample :
  let w := Demo.world_with Demo.lost_phone [] in
  let w' := (mdm_checkin Demo.env (Some (Demo.checkin "TokenUpdate")) w).2 in
  ¬ (∃ d, enrolled_devices w' !! Some "D1" = Some d ∧
          enrolled_at d = enrolled_at Demo.lost_phone ∧
          lost_mode_enabled d = lost_mode_enabled Demo.lost_phone ∧
          lost_mode_message d = lost_mode_message Demo.lost_phone ∧
          lost_mode_phone d = lost_mode_phone Demo.lost_phone).
Proof.
  intros w w' (d & Hd & _ & Hflag & _).
  vm_compute in Hd. injection Hd as <-. discriminate Hflag.
Qed.

(** * Further properties of the handlers *)

Section Handlers.

Variable env : Env.

(** ** Check-in *)

Lemma checkin_queues_kept body w :
  pending_commands (mdm_checkin env body w).2 = pending_commands w ∧
  uuids_drawn (mdm_checkin env body w).2 = uuids_drawn w ∧
  apns_attempts (mdm_checkin env body w).2 = apns_attempts w.
Proof.
  destruct body as [data|]; [|by cbn].
  rewrite mdm_checkin_run. by repeat case_decide.
Qed.

(** X1: a check-in that is not one of the three message types, the missing
    [MessageType] included, is answered with a 400; a body that does not
    parse raises the 400 of [parse_plist].  Neither writes to the registry,
    the queues, the clock or the UUID source; the log gets the record of
    the check-in, or of the parse failure. *)
Theorem checkin_rejection_changes_nothing body w :
  (body = None ∨
   ∃ data, body = Some data ∧
           ci_MessageType data ≠ Some "Authenticate" ∧
           ci_MessageType data ≠ Some "TokenUpdate" ∧
           ci_MessageType data ≠ Some "CheckOut") →
  (mdm_checkin env body w).1 =
    match body with
    | Some _ => Returned (empty_response 400)
    | None => Raised (HTTPException 400 "Invalid plist data")
    end ∧
  enrolled_devices (mdm_checkin env body w).2 = enrolled_devices w ∧
  pending_commands (mdm_checkin env body w).2 = pending_commands w ∧
  clock_reads (mdm_checkin env body w).2 = clock_reads w ∧
  uuids_drawn (mdm_checkin env body w).2 = uuids_drawn w ∧
  log (mdm_checkin env body w).2 =
    log w ++ match body with
             | Some data => [LogCheckIn (ci_MessageType data) (ci_UDID data)]
             | None => [LogParseFailed]
             end.
Proof.
  intros [->|(data & -> & Hauth & Htoken & Hout)].
  - by cbn.
  - rewrite mdm_checkin_run. by repeat case_decide.
Qed.

(** X2: whatever the body, a check-in leaves the queues, the UUID source and
    the push attempts alone, and the only registry entry it can write or
    delete is the one under the UDID it carries. *)
Theorem checkin_touches_one_entry body w :
  pending_commands (mdm_checkin env body w).2 = pending_commands w ∧
  uuids_drawn (mdm_checkin env body w).2 = uuids_drawn w ∧
  apns_attempts (mdm_checkin env body w).2 = apns_attempts w ∧
  ∀ k, (∀ data, body = Some data → k ≠ ci_UDID data) →
       enrolled_devices (mdm_checkin env body w).2 !! k = enrolled_devices w !! k.
Proof.
  destruct body as [data|]; [|by cbn].
  rewrite mdm_checkin_run. repeat case_decide; cbn; repeat split; try done.
  - intros k Hk. rewrite lookup_insert_ne; [done|]. intros <-. by eapply Hk.
  - intros k Hk. rewrite lookup_delete_ne; [done|]. intros <-. by eapply Hk.
Qed.

(** X3: [CheckOut] is idempotent: for a device that is not registered it is a
    200 that leaves the registry as it was, and a second [CheckOut] changes
    nothing the first one has not. *)
Theorem checkout_idempotent data w :
  ci_MessageType data = Some "CheckOut" →
  let once := mdm_checkin env (Some data) w in
  let twice := mdm_checkin env (Some data) once.2 in
  (enrolled_devices w !! ci_UDID data = None →
   once.1 = Returned (empty_response 200) ∧
   enrolled_devices once.2 = enrolled_devices w) ∧
  twice.1 = Returned (empty_response 200) ∧
  enrolled_devices twice.2 = enrolled_devices once.2 ∧
  pending_commands twice.2 = pending_commands w.
Proof.
  intros Hmt once twice. subst once twice. rewrite !mdm_checkin_run.
  repeat case_decide; try congruence. cbn. split; [|split; [done|split; [|done]]].
  - intros Habsent. split; [done|]. by apply delete_id.
  - apply delete_id. apply lookup_delete_eq.
Qed.

(** ** Reading a device back *)

Lemma get_device_run udid w :
  get_device udid w =
  match enrolled_devices w !! Some udid with
  | Some device => (Returned device, w)
  | None => (Raised (HTTPException 404 "Device not found"), w)
  end.
Proof. unfold get_device. unfold_handler. by destruct (enrolled_devices w !! Some udid). Qed.

(** X4: [get_device] right after a [TokenUpdate] of the same UDID returns the
    entry that update wrote, with the token and the unlock token in
    hexadecimal; right after a [CheckOut] it raises the 404.  In both cases
    it leaves the world as it found it. *)
Theorem get_device_after_checkin data udid w :
  ci_UDID data = Some udid →
  let w1 := (mdm_checkin env (Some data) w).2 in
  (ci_MessageType data = Some "TokenUpdate" →
   get_device udid w1 =
     (Returned {| udid := Some udid;
                  token := hex_if_truthy (ci_Token data);
                  push_magic := ci_PushMagic data;
                  unlock_token := hex_if_truthy (ci_UnlockToken data);
                  enrolled_at := utcnow_isoformat env (clock_reads w);
                  last_seen := utcnow_isoformat env (S (clock_reads w));
                  lost_mode_enabled := false;
                  lost_mode_message := None;
                  lost_mode_phone := None |}, w1)) ∧
  (ci_MessageType data = Some "CheckOut" →
   get_device udid w1 = (Raised (HTTPException 404 "Device not found"), w1)).
Proof.
  intros Hudid w1. subst w1. rewrite !get_device_run.
  split; intros Hmt; rewrite mdm_checkin_run;
    repeat case_decide; try congruence; cbn; rewrite <- Hudid.
  - rewrite lookup_insert_eq. unfold token_update_entry. by rewrite Hudid.
  - by rewrite lookup_delete_eq.
Qed.

(** ** The command exchange *)

(** X5: an exchange touches one device only.  Under its UDID the registry entry,
    if there is one, gets the current reading of the clock as [last_seen]
    and keeps every other field; no entry is created.  The entries and the
    queues of all other devices, the UUID source and the push attempts are
    as before. *)
Theorem exchange_touches_one_device data w :
  let w' := (mdm_command env (Some data) w).2 in
  enrolled_devices w' !! cd_UDID data
    = set_last_seen (utcnow_isoformat env (clock_reads w))
        <$> enrolled_devices w !! cd_UDID data ∧
  (∀ k, k ≠ cd_UDID data →
        enrolled_devices w' !! k = enrolled_devices w !! k ∧
        pending_commands w' !! k = pending_commands w !! k) ∧
  uuids_drawn w' = uuids_drawn w ∧
  apns_attempts w' = apns_attempts w.
Proof.
  intros w'. subst w'. rewrite mdm_command_run.
  assert (touched env (cd_UDID data) w !! cd_UDID data
          = set_last_seen (utcnow_isoformat env (clock_reads w))
              <$> enrolled_devices w !! cd_UDID data) as Hself.
  { unfold touched. case_bool_decide as Hreg; [by rewrite lookup_alter_eq|].
    apply eq_None_not_Some in Hreg. by rewrite Hreg. }
  assert (∀ k, k ≠ cd_UDID data →
               touched env (cd_UDID data) w !! k = enrolled_devices w !! k) as Hother.
  { intros k Hk. unfold touched. case_bool_decide; [|done].
    by rewrite lookup_alter_ne. }
  destruct (pending_commands w !! cd_UDID data) as [[|command rest]|] eqn:Hq;
    cbn; (split; [exact Hself|]); (split; [|done]);
    intros k Hk; (split; [by apply Hother|]);
    by rewrite ?lookup_insert_ne.
Qed.

(** ** Enqueueing and the wake *)

(** X6: [send_apns_notification] never raises, and it returns [True] exactly
    when the exchange came back with a successful response and the token is
    not [None]. *)
Theorem send_apns_notification_result token push_magic topic w :
  ∃ sent w',
    send_apns_notification env token push_magic topic w = (Returned sent, w') ∧
    (sent = true ↔
     is_Some token ∧
     ∃ description,
       apns_exchange env (length (apns_attempts w)) = ApnsResponse true description).
Proof.
  rewrite send_apns_notification_run. do 2 eexists. split; [reflexivity|].
  unfold push_result.
  destruct (apns_exchange env (length (apns_attempts w))) as [|[] description].
  - split; [done|]. by intros [_ [? ?]].
  - rewrite bool_decide_eq_true. split; [eauto|tauto].
  - split; [done|]. by intros [_ [? ?]].
Qed.

(** X7: a successful [send_command] draws one UUID, makes one push attempt,
    addressed with the token and the push magic of the registry entry and
    the configured topic, and changes neither the registry nor the queue of
    any other device. *)
Theorem send_command_effects udid command w device :
  enrolled_devices w !! Some udid = Some device →
  let w' := (send_command env udid command w).2 in
  enrolled_devices w' = enrolled_devices w ∧
  (∀ k, k ≠ Some udid → pending_commands w' !! k = pending_commands w !! k) ∧
  uuids_drawn w' = S (uuids_drawn w) ∧
  clock_reads w' = clock_reads w ∧
  apns_attempts w' =
    apns_attempts w ++ [{| pr_token := token device;
                           pr_push_magic := push_magic device;
                           pr_topic := "com.apple.mgmt.External.your-uuid" |}].
Proof.
  intros Hdev w'. subst w'. rewrite (send_command_run _ _ _ _ _ Hdev). cbn.
  repeat split. intros k Hk. by rewrite lookup_insert_ne.
Qed.

(** ** The management endpoints built on [send_command] *)

Lemma lookup_alter_known {A} (f : A → A) (m : gmap (option string) A) k x :
  m !! k = Some x → alter f k m !! k = Some (f x).
Proof. intros Hx. by rewrite lookup_alter_eq, Hx. Qed.

Lemma dict_get_head k v d : dict_get k ((k, v) :: d) = Some v.
Proof. cbn. by rewrite decide_True. Qed.

Lemma queue_of_insert pending k q : queue_of (<[k := q]> pending) k = q.
Proof. unfold queue_of. by rewrite lookup_insert_eq. Qed.

(** Unfolds an endpoint down to its call of [send_command] on a registered
    device and replaces that call by its result. *)
Ltac run_endpoint Hdev :=
  unfold_handler; rewrite ?Hdev;
  rewrite ?bool_decide_eq_true_2 by eauto;
  rewrite ?Hdev; cbn [from_option];
  try (erewrite send_command_run
         by (store_simpl; first [exact Hdev | by apply lookup_alter_known]));
  store_simpl.

Lemma enable_lost_mode_run id message phone_number footnote w device :
  enrolled_devices w !! Some id = Some device →
  ∃ sent w',
    enable_lost_mode env id message phone_number footnote w =
      (Returned {| status := "queued"; command_uuid := uuid4 env (uuids_drawn w);
                   apns_sent := sent |}, w') ∧
    enrolled_devices w' !! Some id =
      Some (set_lost_mode true (Some message) (Some phone_number) device) ∧
    queue_of (pending_commands w') (Some id) =
      queue_of (pending_commands w) (Some id)
      ++ [{| CommandUUID := uuid4 env (uuids_drawn w);
             Command := [("RequestType", VString "EnableLostMode");
                         ("Message", VString message);
                         ("PhoneNumber", VString phone_number)]
                        ++ optional_field "Footnote" footnote |}] ∧
    uuids_drawn w' = S (uuids_drawn w).
Proof.
  intros Hdev. unfold enable_lost_mode.
  run_endpoint Hdev. do 2 eexists. split; [reflexivity|]. store_simpl.
  split; [by apply lookup_alter_known|].
  rewrite queue_of_insert. by destruct footnote as [[|a f]|].
Qed.

Lemma disable_lost_mode_refused id w device :
  enrolled_devices w !! Some id = Some device →
  lost_mode_enabled device = false →
  disable_lost_mode env id w =
    (Raised (HTTPException 400 "Lost Mode is not enabled"), w).
Proof.
  intros Hdev Hflag. unfold disable_lost_mode. unfold_handler.
  rewrite Hdev. rewrite bool_decide_eq_true_2 by eauto.
  rewrite Hdev. cbn [from_option]. by rewrite Hflag.
Qed.

(** X8: [enable_lost_mode] raises the 404 for an unregistered device and then
    leaves the world alone.  For a registered device it sets the lost-mode
    flag, message and phone on the entry and queues an [EnableLostMode]
    command with the message, the phone number and, when it is not empty,
    the footnote.  The flag is set as soon as the command is queued,
    whatever the push comes to. *)
Theorem enable_lost_mode_effects id message phone_number footnote w :
  match enrolled_devices w !! Some id with
  | None =>
      enable_lost_mode env id message phone_number footnote w =
        (Raised (HTTPException 404 "Device not found"), w)
  | Some device =>
      ∃ sent w',
        enable_lost_mode env id message phone_number footnote w =
          (Returned {| status := "queued"; command_uuid := uuid4 env (uuids_drawn w);
                       apns_sent := sent |}, w') ∧
        enrolled_devices w' !! Some id =
          Some {| udid := udid device; token := token device;
                  push_magic := push_magic device;
                  unlock_token := unlock_token device;
                  enrolled_at := enrolled_at device; last_seen := last_seen device;
                  lost_mode_enabled := true;
                  lost_mode_message := Some message;
                  lost_mode_phone := Some phone_number |} ∧
        queue_of (pending_commands w') (Some id) =
          queue_of (pending_commands w) (Some id)
          ++ [{| CommandUUID := uuid4 env (uuids_drawn w);
                 Command := [("RequestType", VString "EnableLostMode");
                             ("Message", VString message);
                             ("PhoneNumber", VString phone_number)]
                            ++ optional_field "Footnote" footnote |}]
  end.
Proof.
  destruct (enrolled_devices w !! Some id) as [device|] eqn:Hdev.
  - destruct (enable_lost_mode_run id message phone_number footnote w device Hdev)
      as (sent & w' & Hrun & Hentry & Hqueue & _).
    by exists sent, w'.
  - unfold enable_lost_mode. unfold_handler. rewrite Hdev.
    by rewrite bool_decide_eq_false_2 by by intros [? ?].
Qed.

Lemma disable_lost_mode_run id w device :
  enrolled_devices w !! Some id = Some device →
  lost_mode_enabled device = true →
  ∃ sent w',
    disable_lost_mode env id w =
      (Returned {| status := "queued"; command_uuid := uuid4 env (uuids_drawn w);
                   apns_sent := sent |}, w') ∧
    enrolled_devices w' !! Some id = Some (set_lost_mode false None None device) ∧
    queue_of (pending_commands w') (Some id) =
      queue_of (pending_commands w) (Some id)
      ++ [{| CommandUUID := uuid4 env (uuids_drawn w);
             Command := [("RequestType", VString "DisableLostMode")] |}].
Proof.
  intros Hdev Hflag. unfold disable_lost_mode.
  unfold_handler. rewrite Hdev. rewrite bool_decide_eq_true_2 by eauto.
  rewrite Hdev. cbn [from_option]. rewrite Hflag. cbn [negb].
  erewrite send_command_run by (store_simpl; by apply lookup_alter_known).
  store_simpl. do 2 eexists. split; [reflexivity|]. store_simpl.
  split; [by apply lookup_alter_known|]. by rewrite queue_of_insert.
Qed.

(** X9: enabling and then disabling lost mode on a registered device: both
    calls return, the entry ends with the flag false and without message and
    phone, every other field as before, and the queue has grown by an
    [EnableLostMode] and a [DisableLostMode] command in that order.  A second
    [disable_lost_mode] is refused with the 400 and changes nothing. *)
Theorem lost_mode_enable_then_disable id message phone_number footnote w device :
  enrolled_devices w !! Some id = Some device →
  let enabled := enable_lost_mode env id message phone_number footnote w in
  let disabled := disable_lost_mode env id enabled.2 in
  let again := disable_lost_mode env id disabled.2 in
  (∃ receipt, disabled.1 = Returned receipt ∧
              command_uuid receipt = uuid4 env (S (uuids_drawn w))) ∧
  enrolled_devices disabled.2 !! Some id =
    Some {| udid := udid device; token := token device;
            push_magic := push_magic device;
            unlock_token := unlock_token device;
            enrolled_at := enrolled_at device; last_seen := last_seen device;
            lost_mode_enabled := false;
            lost_mode_message := None;
            lost_mode_phone := None |} ∧
  (λ c, dict_get "RequestType" (Command c))
    <$> queue_of (pending_commands disabled.2) (Some id) =
    ((λ c, dict_get "RequestType" (Command c))
       <$> queue_of (pending_commands w) (Some id))
    ++ [Some (VString "EnableLostMode"); Some (VString "DisableLostMode")] ∧
  again = (Raised (HTTPException 400 "Lost Mode is not enabled"), disabled.2).
Proof.
  intros Hdev enabled disabled again.
  destruct (enable_lost_mode_run id message phone_number footnote w device Hdev)
    as (sent & w1 & Hrun & Hdev1 & Hq1 & Huuid).
  assert (enabled.2 = w1) as Hw1 by (subst enabled; by rewrite Hrun).
  subst again disabled. rewrite Hw1. clear Hw1 Hrun enabled.
  destruct (disable_lost_mode_run id w1 _ Hdev1 eq_refl)
    as (sent2 & w2 & Hrun2 & Hdev2 & Hq2).
  rewrite Hrun2. cbn [fst snd]. rewrite Huuid.
  split; [eauto|]. split; [done|]. split.
  { rewrite Hq2, Hq1, !fmap_app, <- app_assoc. cbn [fmap list_fmap Command app].
    by rewrite !dict_get_head. }
  by apply (disable_lost_mode_refused id w2 _ Hdev2).
Qed.

(** X10: [device_lock] on a registered device queues a [DeviceLock] command that
    carries [Message] and [PhoneNumber] only for arguments that are given
    and not empty; the registry is unchanged.  For an unregistered device
    it raises the 404 of [send_command] and changes nothing. *)
Theorem device_lock_command id message phone_number w :
  match enrolled_devices w !! Some id with
  | None =>
      device_lock env id message phone_number w =
        (Raised (HTTPException 404 "Device not found"), w)
  | Some device =>
      ∃ sent w',
        device_lock env id message phone_number w =
          (Returned {| status := "queued"; command_uuid := uuid4 env (uuids_drawn w);
                       apns_sent := sent |}, w') ∧
        enrolled_devices w' = enrolled_devices w ∧
        queue_of (pending_commands w') (Some id) =
          queue_of (pending_commands w) (Some id)
          ++ [{| CommandUUID := uuid4 env (uuids_drawn w);
                 Command := [("RequestType", VString "DeviceLock")]
                            ++ optional_field "Message" message
                            ++ optional_field "PhoneNumber" phone_number |}]
  end.
Proof.
  destruct (enrolled_devices w !! Some id) as [device|] eqn:Hdev;
    unfold device_lock.
  - run_endpoint Hdev. do 2 eexists. split; [reflexivity|]. store_simpl.
    split; [done|]. rewrite queue_of_insert.
    by destruct message as [[|a m]|], phone_number as [[|b n]|].
  - by apply send_command_unknown.
Qed.

(** X11: [unenroll_device] does not remove the device: for a registered device
    it returns "unenrollment_initiated", queues a [RemoveProfile] command
    for the identifier [com.yourorg.mdm], and leaves the registry, with the
    device in it, as it was.  For an unregistered device it raises the 404
    and changes nothing. *)
Theorem unenroll_device_keeps_entry id w :
  match enrolled_devices w !! Some id with
  | None =>
      unenroll_device env id w = (Raised (HTTPException 404 "Device not found"), w)
  | Some device =>
      ∃ w',
        unenroll_device env id w = (Returned "unenrollment_initiated", w') ∧
        enrolled_devices w' = enrolled_devices w ∧
        queue_of (pending_commands w') (Some id) =
          queue_of (pending_commands w) (Some id)
          ++ [{| CommandUUID := uuid4 env (uuids_drawn w);
                 Command := [("RequestType", VString "RemoveProfile");
                             ("Identifier", VString "com.yourorg.mdm")] |}]
  end.
Proof.
  destruct (enrolled_devices w !! Some id) as [device|] eqn:Hdev;
    unfold unenroll_device.
  - run_endpoint Hdev. eexists. split; [reflexivity|]. store_simpl.
    split; [done|]. by rewrite queue_of_insert.
  - unfold_handler. rewrite Hdev.
    by rewrite bool_decide_eq_false_2 by by intros [? ?].
Qed.

(** X12: [install_profile] serialises the profile before it looks the device up:
    a profile that [plistlib.dumps] refuses raises that error even for an
    unregistered device.  Otherwise an unregistered device gets the 404, and
    a registered one an [InstallProfile] command whose [Payload] is the
    serialised profile.  A call that raises changes nothing. *)
Theorem install_profile_order id profile w :
  match plistlib_dumps env (VDict profile), enrolled_devices w !! Some id with
  | None, _ => install_profile env id profile w = (Raised DumpsError, w)
  | Some _, None =>
      install_profile env id profile w =
        (Raised (HTTPException 404 "Device not found"), w)
  | Some payload, Some device =>
      ∃ sent w',
        install_profile env id profile w =
          (Returned {| status := "queued"; command_uuid := uuid4 env (uuids_drawn w);
                       apns_sent := sent |}, w') ∧
        queue_of (pending_commands w') (Some id) =
          queue_of (pending_commands w) (Some id)
          ++ [{| CommandUUID := uuid4 env (uuids_drawn w);
                 Command := [("RequestType", VString "InstallProfile");
                             ("Payload", VData payload)] |}]
  end.
Proof.
  unfold install_profile.
  destruct (plistlib_dumps env (VDict profile)) as [payload|]; [|done].
  destruct (enrolled_devices w !! Some id) as [device|] eqn:Hdev.
  - run_endpoint Hdev. do 2 eexists. split; [reflexivity|]. store_simpl.
    by rewrite queue_of_insert.
  - unfold_handler. by rewrite send_command_unknown.
Qed.

(** X13: the two lost-mode requests that read from the device do not look at the
    lost-mode flag: on any registered device, in lost mode or not,
    [get_lost_mode_location] queues a [DeviceLocation] command and
    [play_lost_mode_sound] a [PlayLostModeSound] command, and the registry
    entry is not changed. *)
Theorem lost_mode_requests_ignore_flag id w device :
  enrolled_devices w !! Some id = Some device →
  (∃ sent w',
     get_lost_mode_location env id w =
       (Returned {| status := "queued"; command_uuid := uuid4 env (uuids_drawn w);
                    apns_sent := sent |}, w') ∧
     enrolled_devices w' = enrolled_devices w ∧
     queue_of (pending_commands w') (Some id) =
       queue_of (pending_commands w) (Some id)
       ++ [{| CommandUUID := uuid4 env (uuids_drawn w);
              Command := [("RequestType", VString "DeviceLocation")] |}]) ∧
  (∃ sent w',
     play_lost_mode_sound env id w =
       (Returned {| status := "queued"; command_uuid := uuid4 env (uuids_drawn w);
                    apns_sent := sent |}, w') ∧
     enrolled_devices w' = enrolled_devices w ∧
     queue_of (pending_commands w') (Some id) =
       queue_of (pending_commands w) (Some id)
       ++ [{| CommandUUID := uuid4 env (uuids_drawn w);
              Command := [("RequestType", VString "PlayLostModeSound")] |}]).
Proof.
  intros Hdev. split.
  - unfold get_lost_mode_location. run_endpoint Hdev.
    do 2 eexists. split; [reflexivity|]. store_simpl.
    split; [done|]. by rewrite queue_of_insert.
  - unfold play_lost_mode_sound. run_endpoint Hdev.
    do 2 eexists. split; [reflexivity|]. store_simpl.
    split; [done|]. by rewrite queue_of_insert.
Qed.

(** ** Across handlers *)

(** X14: a [TokenUpdate] whose [Token] is missing or empty still registers the
    device, with no token.  Every [send_command] to it then queues the
    command and reports [apns_sent] false, whatever the push collaborator
    answers. *)
Theorem tokenless_device_is_never_woken data id command w :
  ci_MessageType data = Some "TokenUpdate" →
  ci_UDID data = Some id →
  ci_Token data = None ∨ ci_Token data = Some [] →
  let w1 := (mdm_checkin env (Some data) w).2 in
  ∃ w',
    send_command env id command w1 =
      (Returned {| status := "queued"; command_uuid := uuid4 env (uuids_drawn w);
                   apns_sent := false |}, w') ∧
    queue_of (pending_commands w') (Some id) =
      queue_of (pending_commands w) (Some id)
      ++ [{| CommandUUID := uuid4 env (uuids_drawn w); Command := command |}].
Proof.
  intros Hmt Hid Htoken w1.
  assert (enrolled_devices w1 !! Some id = Some (token_update_entry env data w)
          ∧ pending_commands w1 = pending_commands w
          ∧ uuids_drawn w1 = uuids_drawn w) as (Hdev & Hq & Hu).
  { subst w1. rewrite mdm_checkin_run. repeat case_decide; try congruence.
    cbn. by rewrite <- Hid, lookup_insert_eq. }
  rewrite (send_command_run _ _ _ _ _ Hdev).
  assert (token (token_update_entry env data w) = None) as ->.
  { cbn. by destruct Htoken as [-> | ->]. }
  assert (∀ o, push_result None o = false) as -> by by intros [|[] ?].
  rewrite Hu. eexists. split; [reflexivity|].
  cbn. by rewrite queue_of_insert, Hq.
Qed.

(** X15: commands queued before a [CheckOut] outlive it: when the device checks
    in again with a [TokenUpdate], its next exchange is answered with the
    command that headed its queue before the [CheckOut]. *)
Theorem stale_command_delivered_after_reenrollment checkout update data command rest w :
  ci_MessageType checkout = Some "CheckOut" →
  ci_MessageType update = Some "TokenUpdate" →
  ci_UDID update = ci_UDID checkout →
  cd_UDID data = ci_UDID checkout →
  pending_commands w !! ci_UDID checkout = Some (command :: rest) →
  let w1 := (mdm_checkin env (Some checkout) w).2 in
  let w2 := (mdm_checkin env (Some update) w1).2 in
  let r := mdm_command env (Some data) w2 in
  r.1 = deliver env command ∧
  queue_of (pending_commands r.2) (ci_UDID checkout) = rest ∧
  is_Some (enrolled_devices r.2 !! ci_UDID checkout).
Proof.
  intros Hout Hupd Hk1 Hk2 Hq w1 w2 r.
  destruct (checkin_queues_kept (Some checkout) w) as (Hq1 & _).
  destruct (checkin_queues_kept (Some update) w1) as (Hq2 & _).
  fold w1 in Hq1. fold w2 in Hq2.
  destruct (mdm_command_queue env data w2) as [Hr Hrest]. fold r in Hr, Hrest.
  rewrite Hk2, Hq2, Hq1 in Hr, Hrest. unfold queue_of in Hr, Hrest at 2.
  rewrite Hq in Hr, Hrest. cbn in Hr, Hrest. split; [done|split; [done|]].
  apply (mdm_command_enrolled env data w2). subst w2.
  rewrite mdm_checkin_run.
  repeat case_decide; try congruence; cbn; rewrite Hk1, lookup_insert_eq; eauto.
Qed.

End Handlers.

(** * Properties of whole runs *)

(** ** Who is registered *)

Section RegistryKeys.

Variable env : Env.

Lemma same_devices_refl w : same_devices w w.
Proof. done. Qed.

Lemma same_devices_trans w1 w2 w3 :
  same_devices w1 w2 → same_devices w2 w3 → same_devices w1 w3.
Proof. unfold same_devices. congruence. Qed.

Lemma same_devices_same_registry w w' :
  enrolled_devices w' = enrolled_devices w → same_devices w w'.
Proof. unfold same_devices. by intros ->. Qed.

Hint Resolve same_devices_refl same_devices_trans : mdm.
Hint Resolve respects_ret respects_raise respects_get_world : mdm.

Lemma devices_logger r : respects same_devices (logger r).
Proof. intros w. by apply same_devices_same_registry. Qed.

Lemma devices_utcnow : respects same_devices (utcnow env).
Proof. intros w. by apply same_devices_same_registry. Qed.

Lemma devices_new_uuid : respects same_devices (new_uuid env).
Proof. intros w. by apply same_devices_same_registry. Qed.

Lemma devices_apns_attempt r : respects same_devices (apns_attempt env r).
Proof. intros w. by apply same_devices_same_registry. Qed.

Lemma devices_set_pending_commands f : respects same_devices (set_pending_commands f).
Proof. intros w. by apply same_devices_same_registry. Qed.

Lemma devices_alter f k : respects same_devices (set_enrolled_devices (alter f k)).
Proof. intros w. unfold same_devices. cbn. apply dom_alter_L. Qed.

Hint Resolve devices_logger devices_utcnow devices_new_uuid devices_apns_attempt
  devices_set_pending_commands devices_alter : mdm.

Lemma devices_send_apns_notification token push_magic topic :
  respects same_devices (send_apns_notification env token push_magic topic).
Proof. unfold send_apns_notification. repeat respects_step. Qed.

Lemma devices_require_enrolled id : respects same_devices (require_enrolled id).
Proof. unfold require_enrolled. repeat respects_step. Qed.

Lemma devices_create_plist_response c :
  respects same_devices (create_plist_response env c).
Proof. unfold create_plist_response. repeat respects_step. Qed.

Hint Resolve devices_send_apns_notification devices_require_enrolled
  devices_create_plist_response : mdm.

Lemma devices_send_command id command :
  respects same_devices (send_command env id command).
Proof. unfold send_command. repeat respects_step. Qed.

Hint Resolve devices_send_command : mdm.

Lemma devices_mdm_command body : respects same_devices (mdm_command env body).
Proof. unfold mdm_command, parse_plist. repeat respects_step. Qed.

Lemma devices_handle r w : is_checkin r = false → same_devices w (handle env r w).
Proof.
  intros Hr. destruct r; try discriminate Hr; cbn [handle].
  - apply devices_mdm_command.
  - apply devices_send_command.
  - apply devices_send_command.
  - as_respects. unfold install_profile. repeat respects_step.
  - as_respects. unfold device_lock. repeat respects_step.
  - as_respects. unfold enable_lost_mode. repeat respects_step.
  - as_respects. unfold disable_lost_mode. repeat respects_step.
  - as_respects. unfold get_lost_mode_location. repeat respects_step.
  - as_respects. unfold play_lost_mode_sound. repeat respects_step.
  - as_respects. unfold unenroll_device. repeat respects_step.
Qed.

(** X16: only the check-in channel registers or removes a device: along a run
    without check-ins, whatever the command exchanges and management calls
    in it ([unenroll_device] included) and whether they return or raise, the
    registry has the same keys at the end as at the start. *)
Theorem only_checkins_change_who_is_registered rs w :
  Forall (λ r, is_checkin r = false) rs →
  dom (enrolled_devices (run env rs w)) = dom (enrolled_devices w).
Proof.
  induction rs as [|r rs IH] using rev_ind; intros Hrs; [done|].
  apply Forall_app in Hrs as [Hrs Hr]. apply Forall_inv in Hr.
  rewrite run_snoc. etrans; [|exact (IH Hrs)].
  exact (devices_handle r _ Hr).
Qed.

End RegistryKeys.

(** ** The identifiers of the queued commands *)

Section CommandIds.

Variable env : Env.

Lemma queue_of_insert_ne pending k k' q :
  k ≠ k' → queue_of (<[k := q]> pending) k' = queue_of pending k'.
Proof. intros Hne. unfold queue_of. by rewrite lookup_insert_ne. Qed.

Lemma keeps_ids_refl w : keeps_ids_drawn env w w.
Proof. by intros ?. Qed.

Lemma keeps_ids_trans w1 w2 w3 :
  keeps_ids_drawn env w1 w2 → keeps_ids_drawn env w2 w3 → keeps_ids_drawn env w1 w3.
Proof. unfold keeps_ids_drawn. auto. Qed.

Lemma keeps_ids_same_queues w w' :
  pending_commands w' = pending_commands w →
  uuids_drawn w' = uuids_drawn w →
  keeps_ids_drawn env w w'.
Proof.
  intros Hq Hu (ix & Hids & Hnodup & Hbound & Hapart).
  exists ix. rewrite Hq, Hu. auto.
Qed.

Hint Resolve keeps_ids_refl keeps_ids_trans : mdm.
Hint Resolve respects_ret respects_raise respects_get_world : mdm.

Lemma ids_logger r : respects (keeps_ids_drawn env) (logger r).
Proof. intros w. by apply keeps_ids_same_queues. Qed.

Lemma ids_utcnow : respects (keeps_ids_drawn env) (utcnow env).
Proof. intros w. by apply keeps_ids_same_queues. Qed.

Lemma ids_set_enrolled_devices f : respects (keeps_ids_drawn env) (set_enrolled_devices f).
Proof. intros w. by apply keeps_ids_same_queues. Qed.

(** Popping the head of a queue drops the first draw of its list. *)
Lemma ids_drawn_pop w k command rest w' :
  pending_commands w !! k = Some (command :: rest) →
  pending_commands w' = <[k := rest]> (pending_commands w) →
  uuids_drawn w' = uuids_drawn w →
  keeps_ids_drawn env w w'.
Proof.
  intros Hq Hq' Hu (ix & Hids & Hnodup & Hbound & Hapart).
  assert (∀ k0 n, n ∈ (if decide (k0 = k) then tail (ix k0) else ix k0) → n ∈ ix k0)
    as Hsub.
  { intros k0 n. case_decide; [|done]. destruct (ix k0); [done|].
    cbn. rewrite elem_of_cons. auto. }
  exists (λ k0, if decide (k0 = k) then tail (ix k0) else ix k0).
  rewrite Hq', Hu. repeat split.
  - intros k0. case_decide as Hk; [subst k0|by rewrite queue_of_insert_ne].
    rewrite queue_of_insert. specialize (Hids k). unfold queue_of in Hids.
    rewrite Hq in Hids. cbn in Hids.
    destruct (ix k) as [|n ns]; [done|]. by injection Hids.
  - intros k0. case_decide; [|done]. specialize (Hnodup k0).
    destruct (ix k0); [done|]. by apply NoDup_cons in Hnodup as [_ ?].
  - eauto.
  - eauto.
Qed.

(** Queueing a command under the next draw adds that draw to the list. *)
Lemma ids_drawn_push w k command w' :
  pending_commands w' =
    <[k := queue_of (pending_commands w) k
           ++ [{| CommandUUID := uuid4 env (uuids_drawn w); Command := command |}]]>
      (pending_commands w) →
  uuids_drawn w' = S (uuids_drawn w) →
  keeps_ids_drawn env w w'.
Proof.
  intros Hq' Hu (ix & Hids & Hnodup & Hbound & Hapart).
  assert (∀ k0 n, n ∈ (if decide (k0 = k) then ix k0 ++ [uuids_drawn w] else ix k0) →
                  n ∈ ix k0 ∨ (k0 = k ∧ n = uuids_drawn w)) as Hcases.
  { intros k0 n. case_decide; [|by left].
    rewrite elem_of_app, list_elem_of_singleton. intros [?|?]; auto. }
  exists (λ k0, if decide (k0 = k) then ix k0 ++ [uuids_drawn w] else ix k0).
  rewrite Hq', Hu. repeat split.
  - intros k0. case_decide as Hk; [subst k0|by rewrite queue_of_insert_ne].
    by rewrite queue_of_insert, !fmap_app, Hids.
  - intros k0. case_decide; [|done]. apply NoDup_app. repeat split; [done| |].
    + intros n Hn ->%list_elem_of_singleton. apply Hbound in Hn. lia.
    + apply NoDup_singleton.
  - intros k0 n [Hn|[_ ->]]%Hcases; [|lia]. apply Hbound in Hn. lia.
  - intros k0 k1 n [H0|[-> ->]]%Hcases [H1|[-> Hn]]%Hcases; try done.
    + by eapply Hapart.
    + subst n. apply Hbound in H0. lia.
    + apply Hbound in H1. lia.
Qed.

Lemma ids_send_command id command :
  respects (keeps_ids_drawn env) (send_command env id command).
Proof.
  intros w. destruct (enrolled_devices w !! Some id) as [device|] eqn:Hdev.
  - rewrite (send_command_run _ _ _ _ _ Hdev).
    by eapply ids_drawn_push.
  - rewrite (send_command_unknown _ _ _ _ Hdev). apply keeps_ids_refl.
Qed.

Lemma ids_require_enrolled id : respects (keeps_ids_drawn env) (require_enrolled id).
Proof. unfold require_enrolled. repeat respects_step. Qed.

Hint Resolve ids_logger ids_utcnow ids_set_enrolled_devices ids_send_command
  ids_require_enrolled : mdm.

Lemma ids_handle r w : keeps_ids_drawn env w (handle env r w).
Proof.
  destruct r; cbn [handle].
  - apply keeps_ids_same_queues; by apply checkin_queues_kept.
  - destruct body as [data|]; [|by apply keeps_ids_same_queues].
    rewrite mdm_command_run.
    destruct (pending_commands w !! cd_UDID data) as [[|command rest]|] eqn:Hq;
      try by apply keeps_ids_same_queues.
    by eapply ids_drawn_pop.
  - apply ids_send_command.
  - apply ids_send_command.
  - as_respects. unfold install_profile. repeat respects_step.
  - as_respects. unfold device_lock. repeat respects_step.
  - as_respects. unfold enable_lost_mode. repeat respects_step.
  - as_respects. unfold disable_lost_mode. repeat respects_step.
  - as_respects. unfold get_lost_mode_location. repeat respects_step.
  - as_respects. unfold play_lost_mode_sound. repeat respects_step.
  - as_respects. unfold unenroll_device. repeat respects_step.
Qed.

Lemma ids_drawn_run rs : ids_drawn env (run env rs initial_world).
Proof.
  induction rs as [|r rs IH] using rev_ind.
  - exists (λ _, []). repeat split.
    + intros k. apply NoDup_nil_2.
    + by intros k n ?%elem_of_nil.
    + by intros k k' n ?%elem_of_nil.
  - rewrite run_snoc. by apply ids_handle.
Qed.

(** X17: as long as [uuid4] does not return the same string twice, no two queued
    commands share their [CommandUUID], in one queue or across the queues of
    different devices, at any point of any run of the server from its
    start. *)
Theorem queued_command_ids_are_distinct rs k k' i j c c' :
  (∀ n m, uuid4 env n = uuid4 env m → n = m) →
  queue_of (pending_commands (run env rs initial_world)) k !! i = Some c →
  queue_of (pending_commands (run env rs initial_world)) k' !! j = Some c' →
  CommandUUID c = CommandUUID c' →
  k = k' ∧ i = j.
Proof.
  intros Hinj Hc Hc' Hsame.
  destruct (ids_drawn_run rs) as (ix & Hids & Hnodup & _ & Hapart).
  assert (∀ k0 i0 c0,
            queue_of (pending_commands (run env rs initial_world)) k0 !! i0 = Some c0 →
            ∃ n, ix k0 !! i0 = Some n ∧ CommandUUID c0 = uuid4 env n) as Hdraw.
  { intros k0 i0 c0 Hc0.
    assert ((CommandUUID <$> queue_of (pending_commands (run env rs initial_world)) k0)
              !! i0 = Some (CommandUUID c0)) as Hid
      by by rewrite list_lookup_fmap, Hc0.
    rewrite Hids, list_lookup_fmap in Hid.
    destruct (ix k0 !! i0) as [n|]; [|done]. exists n. split; [done|].
    by injection Hid. }
  destruct (Hdraw _ _ _ Hc) as (n & Hn & Hcn).
  destruct (Hdraw _ _ _ Hc') as (m & Hm & Hcm).
  assert (n = m) as <- by (apply Hinj; congruence).
  assert (k = k') as <-.
  { eapply Hapart; by eapply list_elem_of_lookup_2. }
  split; [done|]. by eapply NoDup_lookup.
Qed.

End CommandIds.

(** ** One device at a time *)

Section Isolation.

Variable env : Env.
Variable k : option string.

Lemma same_at_refl w : same_at k w w.
Proof. done. Qed.

Lemma same_at_trans w1 w2 w3 : same_at k w1 w2 → same_at k w2 w3 → same_at k w1 w3.
Proof. unfold same_at. intros [-> ->] [-> ->]. done. Qed.

Hint Resolve same_at_refl same_at_trans : mdm.
Hint Resolve respects_ret respects_raise respects_get_world : mdm.

Lemma at_logger r : respects (same_at k) (logger r).
Proof. by intros w. Qed.

Lemma at_utcnow : respects (same_at k) (utcnow env).
Proof. by intros w. Qed.

Lemma at_new_uuid : respects (same_at k) (new_uuid env).
Proof. by intros w. Qed.

Lemma at_apns_attempt r : respects (same_at k) (apns_attempt env r).
Proof. by intros w. Qed.

Lemma at_alter_registry f k0 :
  k ≠ k0 → respects (same_at k) (set_enrolled_devices (alter f k0)).
Proof. intros Hk w. split; [|done]. cbn. by rewrite lookup_alter_ne. Qed.

Lemma at_insert_queue q k0 :
  k ≠ k0 → respects (same_at k) (set_pending_commands <[k0 := q]>).
Proof. intros Hk w. split; [done|]. cbn. by rewrite lookup_insert_ne. Qed.

Lemma at_alter_queue f k0 :
  k ≠ k0 → respects (same_at k) (set_pending_commands (alter f k0)).
Proof. intros Hk w. split; [done|]. cbn. by rewrite lookup_alter_ne. Qed.

Hint Resolve at_logger at_utcnow at_new_uuid at_apns_attempt at_alter_registry
  at_insert_queue at_alter_queue : mdm.

Lemma at_send_apns_notification token push_magic topic :
  respects (same_at k) (send_apns_notification env token push_magic topic).
Proof. unfold send_apns_notification. repeat respects_step. Qed.

Lemma at_require_enrolled id : respects (same_at k) (require_enrolled id).
Proof. unfold require_enrolled. repeat respects_step. Qed.

Hint Resolve at_send_apns_notification at_require_enrolled : mdm.

Lemma at_send_command id command :
  k ≠ Some id → respects (same_at k) (send_command env id command).
Proof. intros Hk. unfold send_command. repeat respects_step. Qed.

Hint Resolve at_send_command : mdm.

(** X18: devices do not interfere: a request about one device, whichever the
    endpoint and whether it returns or raises, leaves the registry entry
    and the queue of every other device as they were; a request whose body
    does not parse leaves those of every device. *)
Theorem requests_touch_one_device r w :
  (∀ k0, device_of r = Some k0 → k ≠ k0) →
  enrolled_devices (handle env r w) !! k = enrolled_devices w !! k ∧
  pending_commands (handle env r w) !! k = pending_commands w !! k.
Proof.
  intros Hk. change (same_at k w (handle env r w)).
  destruct r; cbn [handle]; cbn in Hk;
    try (assert (k ≠ Some udid0) as Hne by (by apply Hk)).
  - destruct body as [data|]; [|done].
    assert (k ≠ ci_UDID data) as Hne by by apply Hk.
    rewrite mdm_checkin_run. repeat case_decide; try done.
    + split; [|done]. cbn. by rewrite lookup_insert_ne.
    + split; [|done]. cbn. by rewrite lookup_delete_ne.
  - destruct body as [data|]; [|done].
    assert (k ≠ cd_UDID data) as Hne by by apply Hk.
    assert (touched env (cd_UDID data) w !! k = enrolled_devices w !! k) as Hreg.
    { unfold touched. case_bool_decide; [|done]. by rewrite lookup_alter_ne. }
    rewrite mdm_command_run.
    destruct (pending_commands w !! cd_UDID data) as [[|command rest]|];
      (split; [exact Hreg|]); cbn; by rewrite ?lookup_insert_ne.
  - by apply at_send_command.
  - by apply at_send_command.
  - as_respects. unfold install_profile. repeat respects_step.
  - as_respects. unfold device_lock. repeat respects_step.
  - as_respects. unfold enable_lost_mode. repeat respects_step.
  - as_respects. unfold disable_lost_mode. repeat respects_step.
  - as_respects. unfold get_lost_mode_location. repeat respects_step.
  - as_respects. unfold play_lost_mode_sound. repeat respects_step.
  - as_respects. unfold unenroll_device. repeat respects_step.
Qed.

End Isolation.

(** ** The stored token *)

Lemma hex_digit_inj x y : x < 16 → y < 16 → hex_digit x = hex_digit y → x = y.
Proof.
  intros Hx Hy.
  do 16 (destruct x as [|x]; [do 16 (destruct y as [|y]; [done|]); lia|]).
  lia.
Qed.

Lemma byte_hex_inj b b' : byte_hex b = byte_hex b' → b = b'.
Proof.
  unfold byte_hex.
  pose proof (Byte.to_nat_bounded b) as Hb.
  pose proof (Byte.to_nat_bounded b') as Hb'.
  pose proof (Nat.div_mod_eq (Byte.to_nat b) 16) as Hn.
  pose proof (Nat.div_mod_eq (Byte.to_nat b') 16) as Hn'.
  assert (Byte.to_nat b / 16 < 16) as Hhi_lt
    by (apply Nat.Div0.div_lt_upper_bound; lia).
  assert (Byte.to_nat b' / 16 < 16) as Hhi_lt'
    by (apply Nat.Div0.div_lt_upper_bound; lia).
  assert (Byte.to_nat b mod 16 < 16) as Hlo_lt by (apply Nat.mod_upper_bound; lia).
  assert (Byte.to_nat b' mod 16 < 16) as Hlo_lt' by (apply Nat.mod_upper_bound; lia).
  generalize dependent (Byte.to_nat b / 16).
  generalize dependent (Byte.to_nat b mod 16).
  generalize dependent (Byte.to_nat b' / 16).
  generalize dependent (Byte.to_nat b' mod 16).
  intros lo' Hlo_lt' hi' Hn' Hhi_lt' lo Hlo_lt hi Hn Hhi_lt [= Hhi Hlo].
  apply hex_digit_inj in Hhi; [|done..].
  apply hex_digit_inj in Hlo; [|done..].
  assert (Byte.to_nat b = Byte.to_nat b') as Hnat by congruence.
  pose proof (Byte.of_to_nat b) as Hof. rewrite Hnat, Byte.of_to_nat in Hof.
  by injection Hof.
Qed.

Lemma hex_inj bs : ∀ bs', hex bs = hex bs' → bs = bs'.
Proof.
  induction bs as [|b bs IH]; intros [|b' bs']; try done.
  change (hex (b :: bs)) with (byte_hex b +:+ hex bs).
  change (hex (b' :: bs')) with (byte_hex b' +:+ hex bs').
  intros Hsame.
  assert (byte_hex b = byte_hex b' ∧ hex bs = hex bs') as [Hb Hbs].
  { unfold byte_hex in *.
    generalize dependent (hex_digit (Byte.to_nat b / 16)).
    generalize dependent (hex_digit (Byte.to_nat b mod 16)).
    generalize dependent (hex_digit (Byte.to_nat b' / 16)).
    generalize dependent (hex_digit (Byte.to_nat b' mod 16)).
    intros ? ? ? ? Hsame. injection Hsame as -> -> Hrest. split; [done|].
    exact Hrest. }
  f_equal; [by apply byte_hex_inj|by apply IH].
Qed.

Lemma hex_length bs : String.length (hex bs) = 2 * length bs.
Proof.
  induction bs as [|b bs IH]; [done|].
  change (hex (b :: bs)) with (byte_hex b +:+ hex bs). unfold byte_hex.
  generalize (hex_digit (Byte.to_nat b / 16)) (hex_digit (Byte.to_nat b mod 16)).
  intros hi lo.
  change (String hi (String lo "") +:+ hex bs) with (String hi (String lo (hex bs))).
  cbn [String.length length]. rewrite IH. lia.
Qed.

(** X19: the registry keeps a token as two lower-case hexadecimal digits per
    byte, and nothing of it is lost: the entries two [TokenUpdate]s write
    have the same [token] only if the messages carried the same bytes, or
    neither carried any (a missing and an empty [Token] are both stored as
    no token). *)
Theorem stored_token_is_faithful env data data' w w' d d' :
  ci_MessageType data = Some "TokenUpdate" →
  ci_MessageType data' = Some "TokenUpdate" →
  enrolled_devices (mdm_checkin env (Some data) w).2 !! ci_UDID data = Some d →
  enrolled_devices (mdm_checkin env (Some data') w').2 !! ci_UDID data' = Some d' →
  (∀ bs, ci_Token data = Some bs → bs ≠ [] →
         ∃ t, token d = Some t ∧ String.length t = 2 * length bs) ∧
  (token d = token d' →
   ci_Token data = ci_Token data' ∨
   (ci_Token data = None ∨ ci_Token data = Some []) ∧
   (ci_Token data' = None ∨ ci_Token data' = Some [])).
Proof.
  intros Hmt Hmt' Hd Hd'.
  assert (token d = hex_if_truthy (ci_Token data)) as ->.
  { rewrite mdm_checkin_run in Hd. repeat case_decide; try congruence.
    cbn in Hd. rewrite lookup_insert_eq in Hd. by injection Hd as <-. }
  assert (token d' = hex_if_truthy (ci_Token data')) as ->.
  { rewrite mdm_checkin_run in Hd'. repeat case_decide; try congruence.
    cbn in Hd'. rewrite lookup_insert_eq in Hd'. by injection Hd' as <-. }
  split.
  - intros bs -> Hbs. destruct bs as [|b bs]; [done|].
    exists (hex (b :: bs)). split; [done|]. apply hex_length.
  - intros Hsame.
    destruct (ci_Token data) as [[|b bs]|], (ci_Token data') as [[|b' bs']|];
      unfold hex_if_truthy in Hsame; try discriminate Hsame; auto.
    left. f_equal. apply hex_inj. congruence.
Qed.

(** ** The further properties at concrete requests *)

Lemma checkin_rejection_changes_nothing_witness :
  (mdm_checkin Demo.env (Some (Demo.checkin "DeclarativeManagement"))
     (Demo.world_with Demo.phone [Demo.lock])).1
    = Returned (empty_response 400) ∧
  enrolled_devices
    (mdm_checkin Demo.env (Some (Demo.checkin "DeclarativeManagement"))
       (Demo.world_with Demo.phone [Demo.lock])).2
    = enrolled_devices (Demo.world_with Demo.phone [Demo.lock]).
Proof.
  destruct (checkin_rejection_changes_nothing Demo.env
              (Some (Demo.checkin "DeclarativeManagement"))
              (Demo.world_with Demo.phone [Demo.lock]))
    as (Hanswer & Hregistry & _).
  - right. exists (Demo.checkin "DeclarativeManagement").
    repeat split; discriminate.
  - exact (conj Hanswer Hregistry).
Defined.

Lemma checkin_touches_one_entry_witness :
  enrolled_devices
    (mdm_checkin Demo.env (Some (Demo.checkin "CheckOut"))
       (Demo.world_with Demo.phone [Demo.lock])).2 !! Some "D2"
  = enrolled_devices (Demo.world_with Demo.phone [Demo.lock]) !! Some "D2".
Proof.
  apply (checkin_touches_one_entry Demo.env (Some (Demo.checkin "CheckOut"))
           (Demo.world_with Demo.phone [Demo.lock])).
  intros data [= <-]. discriminate.
Defined.

Lemma checkout_idempotent_witness :
  enrolled_devices
    (mdm_checkin Demo.env (Some (Demo.checkin "CheckOut"))
       (mdm_checkin Demo.env (Some (Demo.checkin "CheckOut"))
          (Demo.world_with Demo.phone [Demo.lock])).2).2
  = enrolled_devices
      (mdm_checkin Demo.env (Some (Demo.checkin "CheckOut"))
         (Demo.world_with Demo.phone [Demo.lock])).2.
Proof.
  apply (checkout_idempotent Demo.env (Demo.checkin "CheckOut")
           (Demo.world_with Demo.phone [Demo.lock]) eq_refl).
Defined.

Lemma get_device_after_checkin_witness :
  get_device "D1"
    (mdm_checkin Demo.env (Some (Demo.checkin "CheckOut"))
       (Demo.world_with Demo.phone [Demo.lock])).2
  = (Raised (HTTPException 404 "Device not found"),
     (mdm_checkin Demo.env (Some (Demo.checkin "CheckOut"))
        (Demo.world_with Demo.phone [Demo.lock])).2).
Proof.
  apply (get_device_after_checkin Demo.env (Demo.checkin "CheckOut") "D1"
           (Demo.world_with Demo.phone [Demo.lock]) eq_refl).
  reflexivity.
Defined.

Lemma exchange_touches_one_device_witness :
  pending_commands
    (mdm_command Demo.env (Some Demo.idle)
       (Demo.world_with Demo.phone [Demo.lock])).2 !! Some "D2"
  = pending_commands (Demo.world_with Demo.phone [Demo.lock]) !! Some "D2".
Proof.
  apply (exchange_touches_one_device Demo.env Demo.idle
           (Demo.world_with Demo.phone [Demo.lock])).
  discriminate.
Defined.

Lemma send_apns_notification_result_witness :
  ∃ sent w',
    send_apns_notification Demo.env None (Some "magic") "topic"
      (Demo.world_with Demo.phone []) = (Returned sent, w') ∧
    sent ≠ true.
Proof.
  destruct (send_apns_notification_result Demo.env None (Some "magic") "topic"
              (Demo.world_with Demo.phone []))
    as (sent & w' & Hrun & Hsent).
  exists sent, w'. split; [exact Hrun|].
  intros Htrue. apply Hsent in Htrue as [[token Htoken] _]. discriminate Htoken.
Defined.

Lemma send_command_effects_witness :
  apns_attempts
    (send_command Demo.env "D1" (Command Demo.locate)
       (Demo.world_with Demo.phone [Demo.lock])).2
  = [{| pr_token := Some "a1b2c3d4e5f6a7b8"; pr_push_magic := Some "magic";
        pr_topic := "com.apple.mgmt.External.your-uuid" |}].
Proof.
  apply (send_command_effects Demo.env "D1" (Command Demo.locate)
           (Demo.world_with Demo.phone [Demo.lock]) Demo.phone eq_refl).
Defined.

Lemma lost_mode_enable_then_disable_witness :
  disable_lost_mode Demo.env "D1"
    (disable_lost_mode Demo.env "D1"
       (enable_lost_mode Demo.env "D1" "Please call" "555-0100" None
          (Demo.world_with Demo.phone [])).2).2
  = (Raised (HTTPException 400 "Lost Mode is not enabled"),
     (disable_lost_mode Demo.env "D1"
        (enable_lost_mode Demo.env "D1" "Please call" "555-0100" None
           (Demo.world_with Demo.phone [])).2).2).
Proof.
  apply (lost_mode_enable_then_disable Demo.env "D1" "Please call" "555-0100" None
           (Demo.world_with Demo.phone []) Demo.phone eq_refl).
Defined.

Lemma lost_mode_requests_ignore_flag_witness :
  ∃ sent w',
    play_lost_mode_sound Demo.env "D1" (Demo.world_with Demo.phone []) =
      (Returned {| status := "queued"; command_uuid := "uuid-0"; apns_sent := sent |},
       w') ∧
    enrolled_devices w' = enrolled_devices (Demo.world_with Demo.phone []).
Proof.
  destruct (lost_mode_requests_ignore_flag Demo.env "D1"
              (Demo.world_with Demo.phone []) Demo.phone eq_refl)
    as (_ & sent & w' & Hrun & Hregistry & _).
  exists sent, w'. exact (conj Hrun Hregistry).
Defined.

Lemma tokenless_device_is_never_woken_witness :
  ∃ w',
    send_command Demo.env "D3" (Command Demo.lock)
      (mdm_checkin Demo.env
         (Some {| ci_MessageType := Some "TokenUpdate"; ci_UDID := Some "D3";
                  ci_Token := Some []; ci_PushMagic := Some "magic-3";
                  ci_UnlockToken := None |})
         initial_world).2
    = (Returned {| status := "queued"; command_uuid := "uuid-0"; apns_sent := false |},
       w').
Proof.
  destruct (tokenless_device_is_never_woken Demo.env
              {| ci_MessageType := Some "TokenUpdate"; ci_UDID := Some "D3";
                 ci_Token := Some []; ci_PushMagic := Some "magic-3";
                 ci_UnlockToken := None |}
              "D3" (Command Demo.lock) initial_world eq_refl eq_refl
              (or_intror eq_refl))
    as (w' & Hrun & _).
  exists w'. exact Hrun.
Defined.

Lemma stale_command_delivered_after_reenrollment_witness :
  (mdm_command Demo.env (Some Demo.idle)
     (mdm_checkin Demo.env (Some (Demo.checkin "TokenUpdate"))
        (mdm_checkin Demo.env (Some (Demo.checkin "CheckOut"))
           (Demo.world_with Demo.phone [Demo.lock; Demo.locate])).2).2).1
  = deliver Demo.env Demo.lock.
Proof.
  apply (stale_command_delivered_after_reenrollment Demo.env
           (Demo.checkin "CheckOut") (Demo.checkin "TokenUpdate") Demo.idle
           Demo.lock [Demo.locate]
           (Demo.world_with Demo.phone [Demo.lock; Demo.locate]));
    reflexivity.
Defined.

Lemma only_checkins_change_who_is_registered_witness :
  dom (enrolled_devices
         (run Demo.env [DeleteDevice "D1"; PutCommand (Some Demo.idle);
                        PostLostModeDisable "D1"]
            (Demo.world_with Demo.phone [])))
  = dom (enrolled_devices (Demo.world_with Demo.phone [])).
Proof.
  apply (only_checkins_change_who_is_registered Demo.env
           [DeleteDevice "D1"; PutCommand (Some Demo.idle); PostLostModeDisable "D1"]
           (Demo.world_with Demo.phone [])).
  repeat constructor.
Defined.

Lemma queued_command_ids_are_distinct_witness :
  Some "D1" = Some "D1" ∧ 1 = 1.
Proof.
  apply (queued_command_ids_are_distinct Demo.env
           [PutCheckin (Some (Demo.checkin "TokenUpdate"));
            PostDeviceLock "D1" None None;
            GetLostModeLocation "D1"]
           (Some "D1") (Some "D1") 1 1
           {| CommandUUID := "uuid-1";
              Command := [("RequestType", VString "DeviceLocation")] |}
           {| CommandUUID := "uuid-1";
              Command := [("RequestType", VString "DeviceLocation")] |}).
  - intros n m Hsame. apply (inj (String.append "uuid-")) in Hsame.
    exact (inj pretty n m Hsame).
  - reflexivity.
  - reflexivity.
  - reflexivity.
Defined.

Lemma requests_touch_one_device_witness :
  pending_commands
    (handle Demo.env (PostDeviceLock "D1" (Some "Locked") None)
       (Demo.world_with Demo.phone [Demo.lock])) !! Some "D2"
  = pending_commands (Demo.world_with Demo.phone [Demo.lock]) !! Some "D2".
Proof.
  apply (requests_touch_one_device Demo.env (Some "D2")
           (PostDeviceLock "D1" (Some "Locked") None)
           (Demo.world_with Demo.phone [Demo.lock])).
  intros k0 [= <-]. discriminate.
Defined.

Lemma stored_token_is_faithful_witness :
  ∃ t, token (token_update_entry Demo.env (Demo.checkin "TokenUpdate") initial_world)
       = Some t ∧ String.length t = 4.
Proof.
  apply (proj1
           (stored_token_is_faithful Demo.env (Demo.checkin "TokenUpdate")
              (Demo.checkin "TokenUpdate") initial_world initial_world
              (token_update_entry Demo.env (Demo.checkin "TokenUpdate") initial_world)
              (token_update_entry Demo.env (Demo.checkin "TokenUpdate") initial_world)
              eq_refl eq_refl eq_refl eq_refl)
           [Byte.x01; Byte.xab] eq_refl).
  discriminate.
Defined.
